(** * Upstream dispatch pipeline of codex-openai-wrapper

    A shallow embedding of [src/upstream.ts] ([generateSessionId],
    [startUpstreamRequest]) and of [getBaseInstructions] from the
    instructions module, followed by the properties the specification
    states about them.

    Conventions.
    - A JavaScript string is represented by the sequence of bytes of its
      UTF-8 encoding (a Rocq [string]), so [TextEncoder.encode] is the
      map from characters to their codes.
    - A JavaScript value that can be [undefined] is an [option]: [None]
      is [undefined].
    - The collaborators whose sources are not part of the translated
      files ([getRefreshedAuth], [refreshAccessToken], [normalizeModelName],
      the KV store, the network) are fields of a [World] record; every
      call made by the orchestrator is recorded in a trace. *)

From Stdlib Require Import ZArith List String Ascii Bool Lia.
From Stdlib Require Import DecimalString.
Import ListNotations.
Local Open Scope string_scope.
Local Open Scope Z_scope.

Set Implicit Arguments.

(* ================================================================= *)
(** ** JSON data and the JavaScript operations applied to it *)

(** Values produced by [JSON.parse] / accepted by [JSON.stringify].
    Numbers are restricted to integers; the fields of an object are
    listed in property order. *)
#[warnings="-register-all"]
Inductive Json : Type :=
| JNull
| JBool (b : bool)
| JNum (n : Z)
| JStr (s : string)
| JArr (items : list Json)
| JObj (fields : list (string * Json)).

(** A JavaScript value: [None] is [undefined]. *)
Definition JsValue : Type := option Json.

(** [!!s] on a string: the empty string is falsy. *)
Definition str_truthy (s : string) : bool :=
  match s with EmptyString => false | String _ _ => true end.

(** Truthiness of an optional string ([undefined] and [""] are falsy). *)
Definition ostr_truthy (o : option string) : bool :=
  match o with Some s => str_truthy s | None => false end.

(** Truthiness of a JSON value. *)
Definition json_truthy (v : Json) : bool :=
  match v with
  | JNull => false
  | JBool b => b
  | JNum n => negb (n =? 0)
  | JStr s => str_truthy s
  | JArr _ => true
  | JObj _ => true
  end.

Definition truthy (v : JsValue) : bool :=
  match v with Some j => json_truthy j | None => false end.

(** [typeof v === "object"]: objects, arrays and [null]. *)
Definition typeof_object (v : JsValue) : bool :=
  match v with
  | Some JNull | Some (JArr _) | Some (JObj _) => true
  | _ => false
  end.

(** [a || b] and [a && b] on JavaScript values. *)
Definition js_or (a b : JsValue) : JsValue := if truthy a then a else b.
Definition js_and (a b : JsValue) : JsValue := if truthy a then b else a.

(** [s || d] for an optional string and a string default. *)
Definition ostr_or (o : option string) (d : string) : string :=
  match o with
  | Some s => if str_truthy s then s else d
  | None => d
  end.

Fixpoint assoc (k : string) (fs : list (string * Json)) : JsValue :=
  match fs with
  | [] => None
  | (k', v) :: rest => if String.eqb k k' then Some v else assoc k rest
  end.

(** What a script can throw: an [Error] instance with its [message], or
    any other value, given by the text [String(e)] yields for it. *)
Inductive Thrown : Type :=
| ErrorInstance (message : string)
| NonError (asString : string).

(** Outcome of an operation that either returns or throws. *)
Inductive JsResult (A : Type) : Type :=
| Val (a : A)
| Throw (e : Thrown).
Arguments Val {A} a.
Arguments Throw {A} e.

(** Property read [v.k] for a name [k] that no prototype defines:
    a [TypeError] on [null], the own field of an object, [undefined] on
    anything else. *)
Definition get_prop (v : Json) (k : string) : JsResult JsValue :=
  match v with
  | JNull =>
      Throw (ErrorInstance
        ("Cannot read properties of null (reading '" ++ k ++ "')"))
  | JObj fs => Val (assoc k fs)
  | _ => Val None
  end.

(* ================================================================= *)
(** ** Number and string rendering *)

Definition lower_hex_digits : string := "0123456789abcdef".

Definition hex_digit (d : Z) : string :=
  match String.get (Z.to_nat d) lower_hex_digits with
  | Some c => String c EmptyString
  | None => EmptyString
  end.

(** [n.toString(16)] for a non-negative integer; [fuel] bounds the
    number of digits. *)
Fixpoint toString16_fuel (fuel : nat) (n : Z) : string :=
  match fuel with
  | O => EmptyString
  | S f =>
      if n <? 16 then hex_digit n
      else toString16_fuel f (n / 16) ++ hex_digit (n mod 16)
  end.

Definition toString16 (n : Z) : string :=
  toString16_fuel (S (Z.to_nat (Z.log2 n))) n.

Fixpoint repeat_string (k : nat) (pad : string) : string :=
  match k with
  | O => EmptyString
  | S k' => pad ++ repeat_string k' pad
  end.

(** [s.padStart(n, pad)] for a one-character [pad]. *)
Definition padStart (s : string) (n : nat) (pad : string) : string :=
  repeat_string (n - String.length s) pad ++ s.

(** Decimal rendering of an integer, as [String(n)] gives it. *)
Definition Z_to_string (n : Z) : string :=
  NilZero.string_of_int (Z.to_int n).

(** String literal of [JSON.stringify]: quotes and backslashes are
    escaped, control characters are written with their short escape or
    as [\u00XX]. *)
Definition escape_char (c : ascii) : string :=
  let n := Z.of_nat (nat_of_ascii c) in
  if n =? 34 then "\" ++ String c EmptyString
  else if n =? 92 then "\\"
  else if n =? 8 then "\b"
  else if n =? 9 then "\t"
  else if n =? 10 then "\n"
  else if n =? 12 then "\f"
  else if n =? 13 then "\r"
  else if n <? 32 then "\u00" ++ hex_digit (n / 16) ++ hex_digit (n mod 16)
  else String c EmptyString.

Fixpoint escape_string (s : string) : string :=
  match s with
  | EmptyString => EmptyString
  | String c rest => escape_char c ++ escape_string rest
  end.

Definition dquote : string := String (ascii_of_nat 34) EmptyString.

Definition quote (s : string) : string := dquote ++ escape_string s ++ dquote.

Fixpoint JSON_stringify (v : Json) : string :=
  match v with
  | JNull => "null"
  | JBool true => "true"
  | JBool false => "false"
  | JNum n => Z_to_string n
  | JStr s => quote s
  | JArr items => "[" ++ String.concat "," (map JSON_stringify items) ++ "]"
  | JObj fields =>
      "{" ++ String.concat ","
               (map (fun kv => let '(k, x) := kv in
                               quote k ++ ":" ++ JSON_stringify x) fields)
          ++ "}"
  end.

(* ================================================================= *)
(** ** SHA-256 ([crypto.subtle.digest("SHA-256", ...)])

    Words are integers in [0, 2^32); additions wrap around. *)
Module SHA256.

Definition wmod : Z := 4294967296.

Definition w32 (x : Z) : Z := x mod wmod.
Definition add32 (a b : Z) : Z := (a + b) mod wmod.
Definition not32 (x : Z) : Z := Z.lxor x 4294967295.
Definition rotr (n x : Z) : Z :=
  Z.lor (Z.shiftr x n) (w32 (Z.shiftl x (32 - n))).
Definition shr (n x : Z) : Z := Z.shiftr x n.

Definition Ch (x y z : Z) : Z := Z.lxor (Z.land x y) (Z.land (not32 x) z).
Definition Maj (x y z : Z) : Z :=
  Z.lxor (Z.lxor (Z.land x y) (Z.land x z)) (Z.land y z).
Definition Sigma0 (x : Z) : Z := Z.lxor (Z.lxor (rotr 2 x) (rotr 13 x)) (rotr 22 x).
Definition Sigma1 (x : Z) : Z := Z.lxor (Z.lxor (rotr 6 x) (rotr 11 x)) (rotr 25 x).
Definition sigma0 (x : Z) : Z := Z.lxor (Z.lxor (rotr 7 x) (rotr 18 x)) (shr 3 x).
Definition sigma1 (x : Z) : Z := Z.lxor (Z.lxor (rotr 17 x) (rotr 19 x)) (shr 10 x).

(** The constants are derived from the primes, as the standard defines
    them: the first 32 bits of the fractional parts of the cube roots
    (round constants) and of the square roots (initial registers). *)
Definition is_prime (n : nat) : bool :=
  forallb (fun d => negb (Nat.eqb (Nat.modulo n d) 0)) (seq 2 (n - 2)).

(** The primes from 2 to 311: the first sixty-four. *)
Definition primes : list Z := map Z.of_nat (filter is_prime (seq 2 310)).

(** Integer cube root, one bit at a time from bit [bits - 1] down. *)
Fixpoint cube_root_bits (bits : nat) (n r : Z) : Z :=
  match bits with
  | O => r
  | S b =>
      let c := r + 2 ^ Z.of_nat b in
      cube_root_bits b n (if c * c * c <=? n then c else r)
  end.

Definition cube_root_fraction (p : Z) : Z :=
  w32 (cube_root_bits 40 (p * 2 ^ 96) 0).

Definition square_root_fraction (p : Z) : Z :=
  w32 (Z.sqrt (p * 2 ^ 64)).

Definition K : list Z := Eval vm_compute in map cube_root_fraction primes.

(** The eight working registers. *)
Record Regs : Type := mkRegs
  { ra : Z; rb : Z; rc : Z; rd : Z; re : Z; rf : Z; rg : Z; rh : Z }.

Definition regs_of_list (l : list Z) : Regs :=
  match l with
  | a :: b :: c :: d :: e :: f :: g :: h :: _ => mkRegs a b c d e f g h
  | _ => mkRegs 0 0 0 0 0 0 0 0
  end.

Definition H0 : Regs :=
  Eval vm_compute in regs_of_list (map square_root_fraction (firstn 8 primes)).

(** Big-endian bytes of a 32-bit word and of a 64-bit length. *)
Definition byte_at (k : Z) (x : Z) : Z := Z.land (Z.shiftr x k) 255.
Definition be32 (x : Z) : list Z :=
  [byte_at 24 x; byte_at 16 x; byte_at 8 x; byte_at 0 x].
Definition be64 (x : Z) : list Z :=
  [byte_at 56 x; byte_at 48 x; byte_at 40 x; byte_at 32 x] ++ be32 x.

Definition pad (msg : list Z) : list Z :=
  let len := Z.of_nat (List.length msg) in
  msg ++ [128] ++ repeat 0 (Z.to_nat ((55 - len) mod 64)) ++ be64 (8 * len).

Fixpoint words_of_bytes (bs : list Z) : list Z :=
  match bs with
  | b0 :: b1 :: b2 :: b3 :: rest =>
      (b0 * 16777216 + b1 * 65536 + b2 * 256 + b3) :: words_of_bytes rest
  | _ => []
  end.

(** Message schedule: [n] more words appended to the ones computed so far. *)
Fixpoint extend (n : nat) (w : list Z) : list Z :=
  match n with
  | O => w
  | S n' =>
      let t := List.length w in
      let at_ (i : nat) := nth (t - i) w 0 in
      extend n'
        (w ++ [add32 (add32 (sigma1 (at_ 2%nat)) (at_ 7%nat))
                     (add32 (sigma0 (at_ 15%nat)) (at_ 16%nat))])
  end.

Definition schedule (block : list Z) : list Z :=
  extend 48 (words_of_bytes block).

Definition round (r : Regs) (kw : Z * Z) : Regs :=
  let '(k, w) := kw in
  let t1 := add32 (add32 (add32 (rh r) (Sigma1 (re r)))
                         (add32 (Ch (re r) (rf r) (rg r)) k)) w in
  let t2 := add32 (Sigma0 (ra r)) (Maj (ra r) (rb r) (rc r)) in
  mkRegs (add32 t1 t2) (ra r) (rb r) (rc r) (add32 (rd r) t1) (re r) (rf r) (rg r).

Definition compress (h : Regs) (block : list Z) : Regs :=
  let r := fold_left round (combine K (schedule block)) h in
  mkRegs (add32 (ra h) (ra r)) (add32 (rb h) (rb r))
         (add32 (rc h) (rc r)) (add32 (rd h) (rd r))
         (add32 (re h) (re r)) (add32 (rf h) (rf r))
         (add32 (rg h) (rg r)) (add32 (rh h) (rh r)).

Fixpoint blocks (fuel : nat) (h : Regs) (bs : list Z) : Regs :=
  match fuel with
  | O => h
  | S f =>
      match bs with
      | [] => h
      | _ => blocks f (compress h (firstn 64 bs)) (skipn 64 bs)
      end
  end.

Definition digest (msg : list Z) : list Z :=
  let padded := pad msg in
  let r := blocks (List.length padded) H0 padded in
  be32 (ra r) ++ be32 (rb r) ++ be32 (rc r) ++ be32 (rd r) ++
  be32 (re r) ++ be32 (rf r) ++ be32 (rg r) ++ be32 (rh r).

End SHA256.

(** [new TextEncoder().encode(s)]: the bytes of the string. *)
Fixpoint TextEncoder_encode (s : string) : list Z :=
  match s with
  | EmptyString => []
  | String c rest => Z.of_nat (nat_of_ascii c) :: TextEncoder_encode rest
  end.

(* ================================================================= *)
(** ** [generateSessionId] *)

Definition InputItem : Type := Json.
Definition Tool : Type := Json.

Definition generateSessionId (instructions : option string)
                             (inputItems : list InputItem) : string :=
  let content :=
    ostr_or instructions "" ++ "|" ++ JSON_stringify (JArr inputItems) in
  let hashArray := SHA256.digest (TextEncoder_encode content) in
  String.concat "" (map (fun b => padStart (toString16 b) 2 "0") hashArray).

(* ================================================================= *)
(** ** Data of the orchestrator *)

Definition Headers : Type := list (string * string).

(** [h[k] = v] on a headers object. *)
Fixpoint set_header (k v : string) (h : Headers) : Headers :=
  match h with
  | [] => [(k, v)]
  | (k', v') :: rest =>
      if String.eqb k k' then (k, v) :: rest else (k', v') :: set_header k v rest
  end.

Fixpoint get_header (k : string) (h : Headers) : option string :=
  match h with
  | [] => None
  | (k', v) :: rest => if String.eqb k k' then Some v else get_header k rest
  end.

(** The fields of [Env] the orchestrator reads. *)
Record Env : Type := mkEnv
  { KV : bool;                          (* is the KV binding present *)
    OLLAMA_API_URL : option string;
    CHATGPT_RESPONSES_URL : string;
    DEBUG_MODEL : option string;
    OPENAI_CODEX_AUTH : option string }.

Record ReasoningParam : Type := mkReasoningParam
  { effort : option string;
    summary : option string }.

(** The declared type of [toolChoice] is a union of two literals and an
    object shape; at run time it is whatever value the caller parsed. *)
Definition ToolChoice : Type := JsValue.

Definition OllamaPayload : Type := Json.

Record Options : Type := mkOptions
  { instructions : option string;
    tools : option (list Tool);
    toolChoice : ToolChoice;
    parallelToolCalls : option bool;
    reasoningParam : option ReasoningParam;
    ollamaPath : option string;
    ollamaPayload : option OllamaPayload }.

(** [options || {}] *)
Definition no_options : Options :=
  mkOptions None None None None None None None.

(** Result of [getRefreshedAuth]. *)
Record Auth : Type := mkAuth
  { accessToken : option string;
    accountId : option string }.

(** Result of [refreshAccessToken] when it is not null. *)
Record RefreshedTokens : Type := mkRefreshedTokens
  { access_token : option string;
    account_id : option string }.

(** A response received from the network: its body is represented by
    what [.json()] and [.text()] yield for it. *)
Record Response : Type := mkResponse
  { status : Z;
    statusText : string;
    headers : Headers;
    json : JsResult Json;
    text : JsResult string }.

(** [response.ok] *)
Definition ok (r : Response) : bool := (200 <=? status r) && (status r <=? 299).

(** A response built with [new Response(body, {status, headers})]. *)
Record NewResponse : Type := mkNewResponse
  { new_body : string;
    new_status : Z;
    new_headers : Headers }.

Record Result : Type := mkResult
  { response : option Response;
    error : option NewResponse }.

(** An outbound [fetch(url, {method: "POST", headers, body})]. *)
Record Request : Type := mkRequest
  { req_url : string;
    req_headers : Headers;
    req_body : option string }.

(** Calls the orchestrator makes to the outside, in order. *)
Inductive Event : Type :=
| EvGetRefreshedAuth
| EvKVGet
| EvFetchPrompt (url : string)
| EvFetch (req : Request)
| EvRefreshAccessToken.

Definition Trace : Type := list Event.

(** The upstream sends recorded in a trace. *)
Fixpoint sends (tr : Trace) : list Request :=
  match tr with
  | [] => []
  | EvFetch req :: rest => req :: sends rest
  | _ :: rest => sends rest
  end.

(** The requests to the network issued by this code: the upstream
    sends and the fetch of the prompt. *)
Definition is_network (e : Event) : bool :=
  match e with
  | EvFetch _ | EvFetchPrompt _ => true
  | _ => false
  end.

Definition refreshes (tr : Trace) : nat :=
  List.length (filter (fun e => match e with EvRefreshAccessToken => true | _ => false end) tr).

(** The collaborators: what each call answers.  The asynchronous ones
    may reject, which is a [Throw]; [normalizeModelName] is a
    synchronous lookup.  The [n]-th upstream send (counted from 0) of a
    request [req] is answered by [w_fetch n req]; [w_fetch_prompt]
    answers the fetch [getBaseInstructions] makes. *)
Record World : Type := mkWorld
  { w_getRefreshedAuth : Env -> JsResult Auth;
    w_KV_get : JsResult JsValue;
    w_fetch_prompt : string -> JsResult Response;
    w_normalizeModelName : string -> option string -> string;
    w_fetch : nat -> Request -> JsResult Response;
    w_refreshAccessToken : Env -> JsResult (option RefreshedTokens) }.

(* ================================================================= *)
(** ** The effect monad: a trace of calls, and exceptions *)

Definition M (A : Type) : Type := Trace -> JsResult A * Trace.

Definition ret {A} (a : A) : M A := fun tr => (Val a, tr).

Definition bind {A B} (m : M A) (k : A -> M B) : M B :=
  fun tr =>
    match m tr with
    | (Val a, tr') => k a tr'
    | (Throw e, tr') => (Throw e, tr')
    end.

(** [try { m } catch (e) { h e }] *)
Definition try_catch {A} (m : M A) (h : Thrown -> M A) : M A :=
  fun tr =>
    match m tr with
    | (Val a, tr') => (Val a, tr')
    | (Throw e, tr') => h e tr'
    end.

(** A call to the outside: recorded, then answered. *)
Definition call {A} (ev : Event) (answer : Trace -> JsResult A) : M A :=
  fun tr => (answer tr, (tr ++ [ev])%list).

(** An operation that throws or returns, without any call. *)
Definition lift {A} (r : JsResult A) : M A := fun tr => (r, tr).

Declare Scope js_scope.
Delimit Scope js_scope with js.
Notation "x <- m ;; k" := (bind m (fun x => k))
  (at level 61, m at next level, right associativity) : js_scope.
Notation "m ;;; k" := (bind m (fun _ => k))
  (at level 61, right associativity) : js_scope.
Local Open Scope js_scope.

(* ================================================================= *)
(** ** Request shaping (the pure expressions of [startUpstreamRequest]) *)

(** A template literal's rendering of a value that may be [undefined]. *)
Definition str_of (o : option string) : string :=
  match o with Some s => s | None => "undefined" end.

(** [o === s] for a string literal [s]. *)
Definition is_literal (o : option string) (s : string) : bool :=
  match o with Some x => String.eqb x s | None => false end.

Definition json_is_literal (v : JsValue) (s : string) : bool :=
  match v with Some (JStr x) => String.eqb x s | _ => false end.

Definition is_undefined (v : JsValue) : bool :=
  match v with None => true | Some _ => false end.

(** [v || d] where the default [d] is a JSON value. *)
Definition json_or (v : JsValue) (d : Json) : Json :=
  match v with
  | Some j => if json_truthy j then j else d
  | None => d
  end.

(** A property whose value is [undefined] is left out by
    [JSON.stringify]. *)
Definition opt_field (k : string) (v : JsValue) : list (string * Json) :=
  match v with Some j => [(k, j)] | None => [] end.

Definition json_content_type : Headers := [("Content-Type", "application/json")].

(** [new Response(JSON.stringify({error: {message}}),
                  {status, headers: {"Content-Type": "application/json"}})].
    The constructor is taken to accept the status. *)
Definition error_payload (message : Json) : Json :=
  JObj [("error", JObj [("message", message)])].

Definition error_response (message : Json) (st : Z) : NewResponse :=
  mkNewResponse (JSON_stringify (error_payload message)) st json_content_type.

Definition missing_credentials_message : string :=
  "Missing ChatGPT credentials. Run 'codex login' first".

Definition encrypted_content : string := "reasoning.encrypted_content".

(** Lines 76-79: [include]. *)
Definition include_of (reasoningParam : option ReasoningParam) : list string :=
  let effort_ := match reasoningParam with Some r => effort r | None => None end in
  if negb (is_literal effort_ "none") then [] ++ [encrypted_content] else [].

(** Lines 97-101: the [tool_choice] field. *)
Definition tool_choice_of (toolChoice : ToolChoice) : Json :=
  if (truthy toolChoice
      && (json_is_literal toolChoice "auto"
          || json_is_literal toolChoice "none"
          || typeof_object toolChoice))
     || is_undefined toolChoice
  then json_or toolChoice (JStr "auto")
  else JStr "auto".

Definition reasoning_json (r : ReasoningParam) : Json :=
  JObj (opt_field "effort" (option_map JStr (effort r))
        ++ opt_field "summary" (option_map JStr (summary r))).

(** Lines 92-108: the object serialised for the primary backend.
    [normalized] is [normalizeModelName(model, env.DEBUG_MODEL)]. *)
Definition responses_body (normalized : string) (inputItems : list InputItem)
    (o : Options) (include : list string) (sessionId : option string)
    (baseInstructions : string) : Json :=
  JObj ([ ("model", JStr normalized);
          ("instructions", JStr (ostr_or (instructions o) baseInstructions));
          ("input", JArr inputItems);
          ("tools", JArr (match tools o with Some t => t | None => [] end));
          ("tool_choice", tool_choice_of (toolChoice o));
          ("parallel_tool_calls",
             JBool (match parallelToolCalls o with Some b => b | None => false end));
          ("store", JBool false);
          ("stream", JBool true);
          ("include", JArr (map JStr include)) ]
        ++ opt_field "prompt_cache_key" (option_map JStr sessionId)
        ++ match reasoningParam o with
           | Some r => [("reasoning", reasoning_json r)]
           | None => []
           end)%list.

(** Lines 110-122 and 163-175: the headers, for a token and an account
    identifier. *)
Definition shape_headers (isOllamaRequest : bool) (token account : string)
    (sessionId : option string) : Headers :=
  let headers := json_content_type in
  if negb isOllamaRequest then
    let headers := set_header "Authorization" ("Bearer " ++ token) headers in
    let headers := set_header "Accept" "text/event-stream" headers in
    let headers := set_header "chatgpt-account-id" account headers in
    let headers := set_header "OpenAI-Beta" "responses=experimental" headers in
    if ostr_truthy sessionId
    then set_header "session_id" (str_of sessionId) headers
    else headers
  else headers.

(** [e instanceof Error ? e.message : String(e)] *)
Definition thrown_text (e : Thrown) : string :=
  match e with
  | ErrorInstance m => m
  | NonError s => s
  end.

Definition transport_failure_prefix : string := "Upstream ChatGPT request failed".

(** Line 200: [(errorBody.error && errorBody.error.message) || "Upstream error"] *)
Definition upstream_error_message (errorBody : Json) : JsResult Json :=
  match get_prop errorBody "error" with
  | Throw e => Throw e
  | Val err =>
      match err with
      | Some j =>
          if json_truthy j then
            match get_prop j "message" with
            | Throw e => Throw e
            | Val m => Val (json_or m (JStr "Upstream error"))
            end
          else Val (json_or err (JStr "Upstream error"))
      | None => Val (json_or err (JStr "Upstream error"))
      end
  end.

(** Lines 147-149: [await upstreamResponse.json().catch(() => ({raw: statusText}))] *)
Definition error_body_of (r : Response) : Json :=
  match json r with
  | Val v => v
  | Throw _ => JObj [("raw", JStr (statusText r))]
  end.

(* ================================================================= *)
(** ** The orchestrator *)

Definition base_prompt_url : string :=
  "https://raw.githubusercontent.com/openai/codex/refs/heads/main/codex-rs/core/prompt.md".

Definition fallback_instructions : string :=
  "You are a coding agent running in the Codex CLI, a terminal-based coding assistant. You are expected to be precise, safe, and helpful.".

Section Orchestrator.

Variable w : World.

Definition getRefreshedAuth (env : Env) : M Auth :=
  call EvGetRefreshedAuth (fun _ => w_getRefreshedAuth w env).

Definition KV_get : M JsValue :=
  call EvKVGet (fun _ => w_KV_get w).

Definition refreshAccessToken (env : Env) : M (option RefreshedTokens) :=
  call EvRefreshAccessToken (fun _ => w_refreshAccessToken w env).

(** [fetch(url, {method: "POST", headers, body})]: answered according to
    the number of upstream sends made before it. *)
Definition fetch (url : string) (hs : Headers) (body : option string) : M Response :=
  let req := mkRequest url hs body in
  call (EvFetch req) (fun tr => w_fetch w (List.length (sends tr)) req).

(** [getBaseInstructions]: the fetched prompt, or the built-in text when
    the fetch fails in any way. *)
Definition getBaseInstructions : M string :=
  try_catch
    (response <- call (EvFetchPrompt base_prompt_url)
                      (fun _ => w_fetch_prompt w base_prompt_url) ;;
     if negb (ok response)
     then lift (Throw (ErrorInstance
                  ("Failed to fetch base instructions: " ++ Z_to_string (status response))))
     else lift (text response))
    (fun _ => ret fallback_instructions).

(** Lines 76-108: what is sent, apart from the headers.  These are
    pure expressions; the one call among them, [getBaseInstructions] at
    line 88, is made by [startUpstreamRequest] and its result passed
    in. *)
Record Shaped : Type := mkShaped
  { isOllamaRequest : bool;
    requestUrl : string;
    sessionId : option string;
    requestBody : option string }.

Definition shape (env : Env) (model : string) (inputItems : list InputItem)
    (o : Options) (baseInstructions : string) : Shaped :=
  let include := include_of (reasoningParam o) in
  let isOllamaRequest := ostr_truthy (ollamaPath o) in
  let requestUrl :=
    if isOllamaRequest
    then str_of (OLLAMA_API_URL env) ++ str_of (ollamaPath o)
    else CHATGPT_RESPONSES_URL env in
  let sessionId :=
    if isOllamaRequest then None
    else Some (generateSessionId (instructions o) inputItems) in
  let requestBody :=
    if isOllamaRequest
    then option_map JSON_stringify (ollamaPayload o)
    else Some (JSON_stringify
                 (responses_body (w_normalizeModelName w model (DEBUG_MODEL env))
                    inputItems o include sessionId baseInstructions)) in
  mkShaped isOllamaRequest requestUrl sessionId requestBody.

(** Lines 110-122: the headers of the first send. *)
Definition initial_headers (sh : Shaped) (auth : Auth) : Headers :=
  shape_headers (isOllamaRequest sh) (str_of (accessToken auth))
    (str_of (accountId auth)) (sessionId sh).

(** Lines 163-175: the headers of the retry. *)
Definition retry_headers (sh : Shaped) (auth : Auth) (t : RefreshedTokens) : Headers :=
  shape_headers (isOllamaRequest sh) (str_of (access_token t))
    (ostr_or (account_id t) (str_of (accountId auth))) (sessionId sh).

Definition initial_request (sh : Shaped) (auth : Auth) : Request :=
  mkRequest (requestUrl sh) (initial_headers sh auth) (requestBody sh).

Definition retry_request (sh : Shaped) (auth : Auth) (t : RefreshedTokens) : Request :=
  mkRequest (requestUrl sh) (retry_headers sh auth t) (requestBody sh).

Definition missing_credentials : Result :=
  mkResult None (Some (error_response (JStr missing_credentials_message) 401)).

Definition transport_failure (e : Thrown) : Result :=
  mkResult None
    (Some (error_response
             (JStr (transport_failure_prefix ++ ": " ++ thrown_text e)) 502)).

(** Lines 124-221: the guarded region. *)
Definition dispatch (env : Env) (sh : Shaped) (auth : Auth) : M Result :=
  try_catch
    (upstreamResponse <- fetch (requestUrl sh) (initial_headers sh auth) (requestBody sh) ;;
     if negb (ok upstreamResponse) then
       let errorBody := error_body_of upstreamResponse in
       retried <-
         (if (status upstreamResponse =? 401) && ostr_truthy (OPENAI_CODEX_AUTH env)
          then
            refreshedTokens <- refreshAccessToken env ;;
            match refreshedTokens with
            | Some t =>
                retryResponse <-
                  fetch (requestUrl sh) (retry_headers sh auth t) (requestBody sh) ;;
                if ok retryResponse
                then ret (Some (mkResult (Some retryResponse) None))
                else ret None
            | None => ret None
            end
          else ret None) ;;
       match retried with
       | Some result => ret result
       | None =>
           message <- lift (upstream_error_message errorBody) ;;
           ret (mkResult None
                  (Some (error_response message (status upstreamResponse))))
       end
     else ret (mkResult (Some upstreamResponse) None))
    (fun e => ret (transport_failure e)).

Definition startUpstreamRequest (env : Env) (model : string)
    (inputItems : list InputItem) (options : option Options) : M Result :=
  let o := match options with Some o => o | None => no_options end in
  auth <- getRefreshedAuth env ;;
  (if KV env
   then try_catch (kvTokens <- KV_get ;; ret tt) (fun _ => ret tt)
   else ret tt) ;;;
  if negb (ostr_truthy (accessToken auth)) || negb (ostr_truthy (accountId auth)) then
    ret missing_credentials
  else
    baseInstructions <- getBaseInstructions ;;
    dispatch env (shape env model inputItems o baseInstructions) auth.

End Orchestrator.

(* ================================================================= *)
(** ** Instructions by model family (the instructions module) *)

Definition gpt5_codex_prompt_url : string :=
  "https://raw.githubusercontent.com/openai/codex/refs/heads/main/codex-rs/core/gpt_5_codex_prompt.md".

(** [model.startsWith("gpt-5-codex") || model.startsWith("codex-")] *)
Definition shouldUseGpt5CodexInstructions (model : string) : bool :=
  String.prefix "gpt-5-codex" model || String.prefix "codex-" model.

Section Instructions.

Variable w : World.

(** [getGpt5CodexInstructions]: the fetched codex prompt, or, when that
    fetch fails in any way, whatever [getBaseInstructions] returns. *)
Definition getGpt5CodexInstructions : M string :=
  try_catch
    (response <- call (EvFetchPrompt gpt5_codex_prompt_url)
                      (fun _ => w_fetch_prompt w gpt5_codex_prompt_url) ;;
     if negb (ok response)
     then lift (Throw (ErrorInstance
                  ("Failed to fetch GPT-5 Codex instructions: "
                   ++ Z_to_string (status response))))
     else lift (text response))
    (fun _ => getBaseInstructions w).

Definition getInstructionsForModel (model : string) : M string :=
  if shouldUseGpt5CodexInstructions model
  then getGpt5CodexInstructions
  else getBaseInstructions w.

End Instructions.

(* ================================================================= *)
(** ** Model presets ([src/models.ts]) *)

Module Models.

Record ModelPreset : Type := mkPreset
  { id : string;
    label : string;
    description : string;
    model : string;
    effort : string }.

Definition MODEL_PRESETS : list ModelPreset :=
  [ mkPreset "gpt-5-codex-low" "gpt-5-codex low"
      "Fastest responses with limited reasoning"
      "gpt-5-codex" "low";
    mkPreset "gpt-5-codex-medium" "gpt-5-codex medium"
      "Dynamically adjusts reasoning based on the task"
      "gpt-5-codex" "medium";
    mkPreset "gpt-5-codex-high" "gpt-5-codex high"
      "Maximizes reasoning depth for complex or ambiguous problems"
      "gpt-5-codex" "high";
    mkPreset "gpt-5-minimal" "gpt-5 minimal"
      "Fastest responses with little reasoning"
      "gpt-5" "minimal";
    mkPreset "gpt-5-low" "gpt-5 low"
      "Balances speed with some reasoning; useful for straightforward queries and short explanations"
      "gpt-5" "low";
    mkPreset "gpt-5-medium" "gpt-5 medium"
      "Provides a solid balance of reasoning depth and latency for general-purpose tasks"
      "gpt-5" "medium";
    mkPreset "gpt-5-high" "gpt-5 high"
      "Maximizes reasoning depth for complex or ambiguous problems"
      "gpt-5" "high" ].

(** [MODEL_PRESETS.find((preset) => preset.id === presetId)] *)
Definition getModelPreset (presetId : string) : option ModelPreset :=
  find (fun preset => String.eqb (id preset) presetId) MODEL_PRESETS.

(** [MODEL_PRESETS.some((preset) => preset.id === id)] *)
Definition isModelPreset (i : string) : bool :=
  existsb (fun preset => String.eqb (id preset) i) MODEL_PRESETS.

(** The second parameter defaults to ["minimal"] when it is not given. *)
Definition getReasoningEffortForModel (modelOrPresetId : string)
    (defaultEffort : option string) : string :=
  let defaultEffort :=
    match defaultEffort with Some e => e | None => "minimal" end in
  match getModelPreset modelOrPresetId with
  | Some preset => effort preset
  | None => defaultEffort
  end.

End Models.

(* ================================================================= *)
(** * Properties *)

(* ================================================================= *)
(** ** Session fingerprint *)

(** The rendering the specification words: a byte as two lowercase
    hexadecimal digits, high digit first. *)
Definition two_hex_digits (b : Z) : string :=
  hex_digit (b / 16) ++ hex_digit (b mod 16).

(** The fingerprint as the specification words it. *)
Definition fingerprint_spec (instructions : option string)
                            (input : list InputItem) : string :=
  let instr := match instructions with Some s => s | None => "" end in
  String.concat ""
    (map two_hex_digits
       (SHA256.digest
          (TextEncoder_encode (instr ++ "|" ++ JSON_stringify (JArr input))))).

Definition is_lower_hex (c : ascii) : bool :=
  let n := nat_of_ascii c in
  ((48 <=? n) && (n <=? 57) || (97 <=? n) && (n <=? 102))%nat.

Fixpoint string_forallb (p : ascii -> bool) (s : string) : bool :=
  match s with
  | EmptyString => true
  | String c rest => p c && string_forallb p rest
  end.

Definition is_byte (b : Z) : Prop := 0 <= b < 256.

Definition all_bytes : list Z := map Z.of_nat (seq 0 256).

Lemma in_all_bytes b : is_byte b -> In b all_bytes.
Proof.
  intros Hb. unfold all_bytes.
  replace b with (Z.of_nat (Z.to_nat b)) by (unfold is_byte in Hb; lia).
  apply in_map, in_seq. unfold is_byte in Hb. lia.
Qed.

(** A property of bytes decided by a boolean test holds of every byte
    once the test has been run on the 256 of them. *)
Lemma byte_exhaust (p : Z -> bool) :
  forallb p all_bytes = true -> forall b, is_byte b -> p b = true.
Proof.
  intros Hall b Hb. rewrite forallb_forall in Hall. apply Hall, in_all_bytes, Hb.
Qed.

Lemma padded_hex_is_two_digits b :
  is_byte b -> padStart (toString16 b) 2 "0" = two_hex_digits b.
Proof.
  intros Hb. apply String.eqb_eq.
  revert b Hb.
  apply (byte_exhaust (fun b => String.eqb (padStart (toString16 b) 2 "0") (two_hex_digits b))).
  vm_compute. reflexivity.
Qed.

Lemma two_hex_digits_length b :
  is_byte b -> String.length (two_hex_digits b) = 2%nat.
Proof.
  intros Hb. apply Nat.eqb_eq. revert b Hb.
  apply (byte_exhaust (fun b => Nat.eqb (String.length (two_hex_digits b)) 2)).
  vm_compute. reflexivity.
Qed.

Lemma two_hex_digits_lower b :
  is_byte b -> string_forallb is_lower_hex (two_hex_digits b) = true.
Proof.
  revert b.
  apply (byte_exhaust (fun b => string_forallb is_lower_hex (two_hex_digits b))).
  vm_compute. reflexivity.
Qed.

Lemma byte_at_is_byte k x : is_byte (SHA256.byte_at k x).
Proof.
  unfold is_byte, SHA256.byte_at.
  change 255 with (Z.ones 8). rewrite Z.land_ones by lia.
  change (2 ^ 8) with 256. apply Z.mod_pos_bound. lia.
Qed.

Lemma be32_bytes x : Forall is_byte (SHA256.be32 x).
Proof. unfold SHA256.be32. repeat constructor; apply byte_at_is_byte. Qed.

Lemma be32_length x : List.length (SHA256.be32 x) = 4%nat.
Proof. reflexivity. Qed.

(** The digest is 32 bytes, whatever the message. *)
Lemma digest_bytes msg : Forall is_byte (SHA256.digest msg).
Proof.
  unfold SHA256.digest. cbv zeta.
  repeat (apply Forall_app; split); apply be32_bytes.
Qed.

Lemma digest_length msg : List.length (SHA256.digest msg) = 32%nat.
Proof.
  unfold SHA256.digest. cbv zeta.
  repeat rewrite length_app. repeat rewrite be32_length. reflexivity.
Qed.

Lemma string_length_append (a b : string) :
  String.length (a ++ b) = (String.length a + String.length b)%nat.
Proof. induction a as [|c a IH]; simpl; [reflexivity | now rewrite IH]. Qed.

Lemma string_forallb_append p (a b : string) :
  string_forallb p (a ++ b) = string_forallb p a && string_forallb p b.
Proof.
  induction a as [|c a IH]; simpl; [reflexivity |].
  now rewrite IH, andb_assoc.
Qed.

Lemma concat_empty_cons (s : string) (l : list string) :
  String.concat "" (s :: l) = s ++ String.concat "" l.
Proof.
  destruct l as [|t l]; simpl.
  - induction s as [|c s IH]; simpl; [reflexivity | now rewrite <- IH].
  - reflexivity.
Qed.

Lemma concat_two_digit_length (bs : list Z) :
  Forall is_byte bs ->
  String.length (String.concat "" (map two_hex_digits bs)) = (2 * List.length bs)%nat.
Proof.
  induction 1 as [|b bs Hb _ IH]; [reflexivity |].
  cbn [map]. rewrite concat_empty_cons, string_length_append, IH.
  rewrite (two_hex_digits_length Hb). cbn [List.length]. lia.
Qed.

Lemma concat_two_digit_lower (bs : list Z) :
  Forall is_byte bs ->
  string_forallb is_lower_hex (String.concat "" (map two_hex_digits bs)) = true.
Proof.
  induction 1 as [|b bs Hb _ IH]; [reflexivity |].
  cbn [map]. rewrite concat_empty_cons, string_forallb_append, IH.
  now rewrite (two_hex_digits_lower Hb).
Qed.

Lemma map_padded_hex (bs : list Z) :
  Forall is_byte bs ->
  map (fun b => padStart (toString16 b) 2 "0") bs = map two_hex_digits bs.
Proof.
  induction 1 as [|b bs Hb _ IH]; [reflexivity |].
  cbn [map]. now rewrite IH, (padded_hex_is_two_digits Hb).
Qed.

Lemma ostr_or_empty (o : option string) :
  ostr_or o "" = match o with Some s => s | None => "" end.
Proof. destruct o as [[|c s]|]; reflexivity. Qed.

Lemma generateSessionId_refines i x : generateSessionId i x = fingerprint_spec i x.
Proof.
  unfold generateSessionId, fingerprint_spec. cbv zeta.
  rewrite ostr_or_empty, map_padded_hex by apply digest_bytes.
  reflexivity.
Qed.

(** C9. The session fingerprint is the lowercase, two-digits-per-byte
    hexadecimal rendering of the SHA-256 digest of the UTF-8 bytes of
    the instructions (the empty string when absent), a vertical bar and
    the serialised input; computed on identical arguments it gives
    identical results; and it always has 64 characters, all of them
    lowercase hexadecimal digits. *)
Theorem generateSessionId_fingerprint :
  forall (i i' : option string) (x x' : list InputItem),
    i = i' -> x = x' ->
    generateSessionId i x = generateSessionId i' x'
    /\ generateSessionId i x = fingerprint_spec i x
    /\ String.length (generateSessionId i x) = 64%nat
    /\ string_forallb is_lower_hex (generateSessionId i x) = true.
Proof.
  intros i i' x x' Hi Hx. subst i' x'.
  split; [reflexivity |].
  split; [apply generateSessionId_refines |].
  rewrite generateSessionId_refines. unfold fingerprint_spec. cbv zeta.
  split.
  - rewrite concat_two_digit_length by apply digest_bytes.
    now rewrite digest_length.
  - apply concat_two_digit_lower, digest_bytes.
Qed.

Lemma generateSessionId_fingerprint_witness :
  generateSessionId (Some "abc") [JStr "hi"] = generateSessionId (Some "abc") [JStr "hi"]
  /\ generateSessionId (Some "abc") [JStr "hi"] = fingerprint_spec (Some "abc") [JStr "hi"]
  /\ String.length (generateSessionId (Some "abc") [JStr "hi"]) = 64%nat
  /\ string_forallb is_lower_hex (generateSessionId (Some "abc") [JStr "hi"]) = true.
Proof.
  apply (@generateSessionId_fingerprint (Some "abc") (Some "abc") [JStr "hi"] [JStr "hi"]);
    reflexivity.
Defined.

(** Known answers: the digest of ["abc"], and the fingerprint of absent
    instructions with an empty input. *)
Example sha256_abc :
  String.concat "" (map two_hex_digits (SHA256.digest (TextEncoder_encode "abc")))
  = "ba7816bf8f01cfea414140de5dae2223b00361a396177a9cb410ff61f20015ad".
Proof. vm_compute. reflexivity. Qed.

Example generateSessionId_empty :
  generateSessionId None []
  = "5feb6a3531244c00f6379279cde8ed00fa1309194de09f83c3b8ac2f28055d27".
Proof. vm_compute. reflexivity. Qed.

(* ================================================================= *)
(** ** Runs of the orchestrator

    The monadic definition is brought to the form of a decision tree on
    the answers of the collaborators; the properties below are read off
    that tree. *)

Definition options_of (options : option Options) : Options :=
  match options with Some o => o | None => no_options end.

(** What [getBaseInstructions] returns in a world. *)
Definition base_instructions_of (w : World) : string :=
  match w_fetch_prompt w base_prompt_url with
  | Val r =>
      if ok r
      then match text r with Val t => t | Throw _ => fallback_instructions end
      else fallback_instructions
  | Throw _ => fallback_instructions
  end.

Definition kv_events (env : Env) : Trace :=
  if KV env then [EvKVGet] else [].

(** The failure result built from a non-2xx response (lines 195-205),
    or what the handler makes of the exception raised while building it. *)
Definition mirrored_failure (r : Response) : Result :=
  match upstream_error_message (error_body_of r) with
  | Val m => mkResult None (Some (error_response m (status r)))
  | Throw e => transport_failure e
  end.

Lemma sends_app (tr tr' : Trace) :
  sends (tr ++ tr')%list = (sends tr ++ sends tr')%list.
Proof.
  induction tr as [|e tr IH]; [reflexivity |].
  destruct e; simpl; rewrite IH; reflexivity.
Qed.

Lemma getBaseInstructions_run (w : World) (tr : Trace) :
  getBaseInstructions w tr
  = (Val (base_instructions_of w), (tr ++ [EvFetchPrompt base_prompt_url])%list).
Proof.
  unfold getBaseInstructions, base_instructions_of, try_catch, bind, call, lift, ret.
  destruct (w_fetch_prompt w base_prompt_url) as [r|e]; [|reflexivity].
  destruct (ok r); simpl; [|reflexivity].
  destruct (text r); reflexivity.
Qed.

Definition refresh_applies (env : Env) (r : Response) : bool :=
  (status r =? 401) && ostr_truthy (OPENAI_CODEX_AUTH env).

(** The guarded region as a decision tree, when no send precedes it. *)
Definition dispatch_tree (w : World) (env : Env) (sh : Shaped) (auth : Auth)
                         (tr : Trace) : JsResult Result * Trace :=
  let req0 := initial_request sh auth in
  let tr1 := (tr ++ [EvFetch req0])%list in
  match w_fetch w 0 req0 with
  | Throw e => (Val (transport_failure e), tr1)
  | Val r =>
      if ok r then (Val (mkResult (Some r) None), tr1)
      else if refresh_applies env r then
        let tr2 := (tr1 ++ [EvRefreshAccessToken])%list in
        match w_refreshAccessToken w env with
        | Throw e => (Val (transport_failure e), tr2)
        | Val None => (Val (mirrored_failure r), tr2)
        | Val (Some t) =>
            let req1 := retry_request sh auth t in
            let tr3 := (tr2 ++ [EvFetch req1])%list in
            match w_fetch w 1 req1 with
            | Throw e => (Val (transport_failure e), tr3)
            | Val r' =>
                if ok r' then (Val (mkResult (Some r') None), tr3)
                else (Val (mirrored_failure r), tr3)
            end
        end
      else (Val (mirrored_failure r), tr1)
  end.

Lemma dispatch_is_tree w env sh auth tr :
  sends tr = [] -> dispatch w env sh auth tr = dispatch_tree w env sh auth tr.
Proof.
  intros Hno.
  unfold dispatch, dispatch_tree, try_catch, bind, fetch, refreshAccessToken,
         call, lift, ret, initial_request, retry_request, refresh_applies,
         mirrored_failure.
  cbv zeta. rewrite Hno. cbn [List.length].
  destruct (w_fetch w 0 _) as [r|e]; [|reflexivity].
  destruct (ok r); cbn [negb]; [reflexivity |].
  destruct ((status r =? 401) && ostr_truthy (OPENAI_CODEX_AUTH env)).
  - destruct (w_refreshAccessToken w env) as [[t|]|e]; [| |reflexivity].
    + rewrite !sends_app, Hno. cbn [sends app List.length].
      destruct (w_fetch w 1 _) as [r'|e']; [|reflexivity].
      destruct (ok r'); [reflexivity |].
      destruct (upstream_error_message (error_body_of r)); reflexivity.
    + destruct (upstream_error_message (error_body_of r)); reflexivity.
  - destruct (upstream_error_message (error_body_of r)); reflexivity.
Qed.

(** A whole invocation, from the empty trace. *)
Definition run (w : World) (env : Env) (model : string)
    (inputItems : list InputItem) (options : option Options)
  : JsResult Result * Trace :=
  startUpstreamRequest w env model inputItems options [].

Definition credentials_missing (auth : Auth) : bool :=
  negb (ostr_truthy (accessToken auth)) || negb (ostr_truthy (accountId auth)).

Definition prelude (env : Env) : Trace :=
  (EvGetRefreshedAuth :: kv_events env ++ [EvFetchPrompt base_prompt_url])%list.

Lemma sends_prelude env : sends (prelude env) = [].
Proof. unfold prelude, kv_events. destruct (KV env); reflexivity. Qed.

Lemma run_is_tree w env model inputItems options :
  run w env model inputItems options =
  match w_getRefreshedAuth w env with
  | Throw e => (Throw e, [EvGetRefreshedAuth])
  | Val auth =>
      if credentials_missing auth
      then (Val missing_credentials, EvGetRefreshedAuth :: kv_events env)
      else dispatch_tree w env
             (shape w env model inputItems (options_of options)
                (base_instructions_of w))
             auth (prelude env)
  end.
Proof.
  unfold run, startUpstreamRequest. fold (options_of options).
  unfold bind at 1. unfold getRefreshedAuth, call. cbn [app].
  destruct (w_getRefreshedAuth w env) as [auth|e]; [|reflexivity].
  fold (credentials_missing auth).
  assert (Hkv : (if KV env
                 then try_catch (bind (KV_get w) (fun _ => ret tt)) (fun _ => ret tt)
                 else ret tt) [EvGetRefreshedAuth]
                = (Val tt, EvGetRefreshedAuth :: kv_events env)).
  { unfold kv_events, try_catch, bind, KV_get, call, ret.
    destruct (KV env); [|reflexivity].
    destruct (w_KV_get w); reflexivity. }
  unfold bind at 1. rewrite Hkv.
  destruct (credentials_missing auth); [reflexivity |].
  unfold bind. rewrite getBaseInstructions_run.
  apply dispatch_is_tree.
  change (sends (prelude env) = []). apply sends_prelude.
Qed.

(* ================================================================= *)
(** ** Worlds used to exercise the statements *)

Module Scenario.

Definition env : Env :=
  mkEnv true (Some "http://localhost:11434") "https://chatgpt.example/responses"
        None (Some "refresh-material").

Definition auth : Auth := mkAuth (Some "tok") (Some "acct").

Definition unauthorized (body : JsResult Json) : Response :=
  mkResponse 401 "Unauthorized" [] body (Val "").

Definition accepted : Response :=
  mkResponse 200 "OK" [("content-type", "text/event-stream")] (Throw (NonError "not json"))
             (Val "data: {}").

Definition body_with_message (m : Json) : JsResult Json :=
  Val (JObj [("error", JObj [("message", m)])]).

Definition tokens : RefreshedTokens := mkRefreshedTokens (Some "tok2") None.

(** A world in which credentials are [creds], the prompt cannot be
    fetched, the first upstream send is answered by [first], the
    refresh by [refresh] and any later send by [second]. *)
Definition world (creds : JsResult Auth) (first : JsResult Response)
    (refresh : JsResult (option RefreshedTokens))
    (second : JsResult Response) : World :=
  mkWorld (fun _ => creds) (Val (Some JNull))
          (fun _ => Throw (NonError "offline"))
          (fun m _ => m)
          (fun n _ => match n with O => first | _ => second end)
          (fun _ => refresh).

(** Credentials without an account identifier, and without a token. *)
Definition no_account : World :=
  world (Val (mkAuth (Some "tok") None)) (Val accepted) (Val None) (Val accepted).

Definition no_token : World :=
  world (Val (mkAuth None (Some "acct"))) (Val accepted) (Val None) (Val accepted).

Definition ollama : Options :=
  mkOptions None None None None None (Some "/api/chat")
            (Some (JObj [("model", JStr "llama3")])).

End Scenario.

(* ================================================================= *)
(** ** Missing credentials *)

(** C2. When the credential accessor yields a missing access token or a
    missing account identifier, the invocation returns the error result
    with status 401 and the fixed message, and its trace holds no
    request to the network. *)
Theorem missing_credentials_no_request :
  forall w env model inputItems options auth,
    w_getRefreshedAuth w env = Val auth ->
    ostr_truthy (accessToken auth) = false \/ ostr_truthy (accountId auth) = false ->
    fst (run w env model inputItems options)
    = Val (mkResult None
             (Some (error_response
                      (JStr "Missing ChatGPT credentials. Run 'codex login' first")
                      401)))
    /\ existsb is_network (snd (run w env model inputItems options)) = false
    /\ sends (snd (run w env model inputItems options)) = [].
Proof.
  intros w env model inputItems options auth Hauth Hmiss.
  rewrite run_is_tree, Hauth.
  assert (Hm : credentials_missing auth = true).
  { unfold credentials_missing.
    destruct Hmiss as [H|H]; rewrite H; cbn [negb orb]; [reflexivity|].
    apply orb_true_r. }
  rewrite Hm. cbn [fst snd].
  split; [reflexivity |].
  unfold kv_events. destruct (KV env); split; reflexivity.
Qed.

Lemma missing_credentials_no_request_witness :
  fst (run Scenario.no_account Scenario.env "gpt-5" [] None)
  = Val (mkResult None
           (Some (error_response
                    (JStr "Missing ChatGPT credentials. Run 'codex login' first")
                    401)))
  /\ existsb is_network (snd (run Scenario.no_account Scenario.env "gpt-5" [] None)) = false
  /\ sends (snd (run Scenario.no_account Scenario.env "gpt-5" [] None)) = [].
Proof.
  apply (@missing_credentials_no_request Scenario.no_account Scenario.env "gpt-5" [] None
           (mkAuth (Some "tok") None)).
  - reflexivity.
  - right. reflexivity.
Defined.

Lemma shape_headers_ollama token account sid :
  shape_headers true token account sid = [("Content-Type", "application/json")].
Proof. reflexivity. Qed.

(** C10. The credential precondition applies to the alternate backend
    too: with an Ollama path given, a missing token or account
    identifier still yields the 401 missing-credentials result without
    any request to the network, although the headers shaped for that
    backend, first send and retry alike, consist of the content type
    alone. *)
Theorem ollama_still_requires_credentials :
  forall w env model inputItems options auth,
    ostr_truthy (ollamaPath (options_of options)) = true ->
    w_getRefreshedAuth w env = Val auth ->
    ostr_truthy (accessToken auth) = false \/ ostr_truthy (accountId auth) = false ->
    (fst (run w env model inputItems options)
     = Val (mkResult None
              (Some (error_response
                       (JStr "Missing ChatGPT credentials. Run 'codex login' first")
                       401)))
     /\ existsb is_network (snd (run w env model inputItems options)) = false)
    /\ (forall base a t,
          let sh := shape w env model inputItems (options_of options) base in
          initial_headers sh a = [("Content-Type", "application/json")]
          /\ retry_headers sh a t = [("Content-Type", "application/json")]
          /\ get_header "Authorization" (initial_headers sh a) = None
          /\ get_header "chatgpt-account-id" (initial_headers sh a) = None).
Proof.
  intros w env model inputItems options auth Hollama Hauth Hmiss.
  split.
  - rewrite run_is_tree, Hauth.
    assert (Hm : credentials_missing auth = true).
    { unfold credentials_missing.
      destruct Hmiss as [H|H]; rewrite H; cbn [negb orb]; [reflexivity|].
      apply orb_true_r. }
    rewrite Hm. cbn [fst snd].
    split; [reflexivity |].
    unfold kv_events. destruct (KV env); reflexivity.
  - intros base a t sh.
    unfold initial_headers, retry_headers. subst sh.
    unfold shape. cbn [isOllamaRequest sessionId]. rewrite Hollama.
    rewrite !shape_headers_ollama. repeat split; reflexivity.
Qed.

Lemma ollama_still_requires_credentials_witness :
  fst (run Scenario.no_token Scenario.env "llama3" [] (Some Scenario.ollama))
  = Val (mkResult None
           (Some (error_response
                    (JStr "Missing ChatGPT credentials. Run 'codex login' first")
                    401)))
  /\ existsb is_network
       (snd (run Scenario.no_token Scenario.env "llama3" [] (Some Scenario.ollama))) = false.
Proof.
  apply (@ollama_still_requires_credentials Scenario.no_token Scenario.env "llama3" []
           (Some Scenario.ollama) (mkAuth None (Some "acct"))).
  - reflexivity.
  - reflexivity.
  - left. reflexivity.
Defined.

(* ================================================================= *)
(** ** Transport failure *)

(** C5. When credentials are present and the initial send throws, the
    invocation returns the failure result with status 502 whose message
    is the phrase "Upstream ChatGPT request failed", a colon, and the
    text of what was thrown. *)
Theorem transport_throw_gives_502 :
  forall w env model inputItems options auth e,
    let sh := shape w env model inputItems (options_of options)
                (base_instructions_of w) in
    w_getRefreshedAuth w env = Val auth ->
    credentials_missing auth = false ->
    w_fetch w 0 (initial_request sh auth) = Throw e ->
    fst (run w env model inputItems options)
    = Val (mkResult None
             (Some (error_response
                      (JStr ("Upstream ChatGPT request failed" ++ ": " ++ thrown_text e))
                      502)))
    /\ sends (snd (run w env model inputItems options)) = [initial_request sh auth].
Proof.
  intros w env model inputItems options auth e sh Hauth Hcreds Hthrow.
  rewrite run_is_tree, Hauth, Hcreds.
  unfold dispatch_tree. fold sh. cbv zeta. rewrite Hthrow. cbn [fst snd].
  split; [reflexivity |].
  rewrite sends_app, sends_prelude. reflexivity.
Qed.

Lemma transport_throw_gives_502_witness :
  fst (run (Scenario.world (Val Scenario.auth) (Throw (ErrorInstance "getaddrinfo ENOTFOUND"))
              (Val None) (Val Scenario.accepted))
           Scenario.env "gpt-5" [] None)
  = Val (mkResult None
           (Some (error_response
                    (JStr "Upstream ChatGPT request failed: getaddrinfo ENOTFOUND")
                    502))).
Proof.
  apply (@transport_throw_gives_502
           (Scenario.world (Val Scenario.auth) (Throw (ErrorInstance "getaddrinfo ENOTFOUND"))
              (Val None) (Val Scenario.accepted))
           Scenario.env "gpt-5" [] None Scenario.auth
           (ErrorInstance "getaddrinfo ENOTFOUND")); reflexivity.
Defined.

(* ================================================================= *)
(** ** The 401 recovery path *)

(** C1. When credentials are present, the first send is answered with
    status 401, the refresh mechanism is configured, the refresh returns
    new credentials and the retried request is answered with a 2xx
    status, the result is the success carrying the retry's response;
    the 401 response is not what is returned; and exactly two requests
    were sent, the second with the URL and the body of the first. *)
Theorem refresh_then_retry_succeeds :
  forall w env model inputItems options auth r401 t retryResponse,
    let sh := shape w env model inputItems (options_of options)
                (base_instructions_of w) in
    w_getRefreshedAuth w env = Val auth ->
    credentials_missing auth = false ->
    w_fetch w 0 (initial_request sh auth) = Val r401 ->
    status r401 = 401 ->
    ostr_truthy (OPENAI_CODEX_AUTH env) = true ->
    w_refreshAccessToken w env = Val (Some t) ->
    w_fetch w 1 (retry_request sh auth t) = Val retryResponse ->
    ok retryResponse = true ->
    fst (run w env model inputItems options)
    = Val (mkResult (Some retryResponse) None)
    /\ retryResponse <> r401
    /\ sends (snd (run w env model inputItems options))
       = [initial_request sh auth; retry_request sh auth t]
    /\ req_url (retry_request sh auth t) = req_url (initial_request sh auth)
    /\ req_body (retry_request sh auth t) = req_body (initial_request sh auth)
    /\ refreshes (snd (run w env model inputItems options)) = 1%nat.
Proof.
  intros w env model inputItems options auth r401 t retryResponse sh
         Hauth Hcreds Hfirst H401 Hconf Hrefresh Hretry Hok.
  assert (Hnok : ok r401 = false) by (unfold ok; rewrite H401; reflexivity).
  assert (Happ : refresh_applies env r401 = true)
    by (unfold refresh_applies; rewrite H401, Hconf; reflexivity).
  rewrite run_is_tree, Hauth, Hcreds.
  unfold dispatch_tree. fold sh. cbv zeta.
  rewrite Hfirst, Hnok, Happ, Hrefresh, Hretry, Hok. cbn [fst snd].
  split; [reflexivity |].
  split; [intros ->; congruence |].
  split; [rewrite !sends_app, sends_prelude; reflexivity |].
  split; [reflexivity |].
  split; [reflexivity |].
  unfold refreshes, prelude, kv_events. destruct (KV env); reflexivity.
Qed.

Lemma refresh_then_retry_succeeds_witness :
  fst (run (Scenario.world (Val Scenario.auth)
              (Val (Scenario.unauthorized (Scenario.body_with_message (JStr "token expired"))))
              (Val (Some Scenario.tokens)) (Val Scenario.accepted))
           Scenario.env "gpt-5" [] None)
  = Val (mkResult (Some Scenario.accepted) None).
Proof.
  apply (@refresh_then_retry_succeeds
           (Scenario.world (Val Scenario.auth)
              (Val (Scenario.unauthorized (Scenario.body_with_message (JStr "token expired"))))
              (Val (Some Scenario.tokens)) (Val Scenario.accepted))
           Scenario.env "gpt-5" [] None Scenario.auth
           (Scenario.unauthorized (Scenario.body_with_message (JStr "token expired")))
           Scenario.tokens Scenario.accepted); reflexivity.
Defined.

(** The value of [error.message] in a parsed body, when the body is an
    object whose [error] is an object holding a [message]. *)
Definition message_field (body : Json) : JsValue :=
  match body with
  | JObj fs =>
      match assoc "error" fs with
      | Some (JObj gs) => assoc "message" gs
      | _ => None
      end
  | _ => None
  end.

(** The message surfaced for a parsed body: the [error.message] it
    holds when that value is truthy, the generic text otherwise. *)
Definition surfaced_message (body : Json) : Json :=
  match message_field body with
  | Some m => if json_truthy m then m else JStr "Upstream error"
  | None => JStr "Upstream error"
  end.

Lemma upstream_error_message_value (body : Json) :
  body <> JNull ->
  upstream_error_message body = Val (surfaced_message body).
Proof.
  intros Hnn. unfold upstream_error_message, surfaced_message, message_field.
  destruct body as [| b | n | s | items | fs]; try reflexivity; [congruence |].
  cbn [get_prop]. destruct (assoc "error" fs) as [err|]; [|reflexivity].
  destruct err as [| b | n | s | items | gs]; cbn [json_truthy get_prop json_or];
    try reflexivity.
  - destruct b; reflexivity.
  - destruct (negb (n =? 0)); reflexivity.
  - destruct (str_truthy s); reflexivity.
Qed.

Lemma upstream_error_message_null :
  upstream_error_message JNull
  = Throw (ErrorInstance "Cannot read properties of null (reading 'error')").
Proof. reflexivity. Qed.

(** C3, as the code has it. When credentials are present, the first
    send is answered with status 401, the refresh mechanism is
    configured, the parsed body of that answer is not the JSON value
    [null], and either the refresh returns nothing or the retried
    request is answered with a non-2xx status, the result is the failure
    with status 401 whose message is the original body's [error.message]
    when that value is truthy and "Upstream error" otherwise (field
    absent, or holding a falsy value such as the empty string); the
    answer to the retry plays no part in it. *)
Theorem unrecovered_401_reports_original :
  forall w env model inputItems options auth r401,
    let sh := shape w env model inputItems (options_of options)
                (base_instructions_of w) in
    w_getRefreshedAuth w env = Val auth ->
    credentials_missing auth = false ->
    w_fetch w 0 (initial_request sh auth) = Val r401 ->
    status r401 = 401 ->
    ostr_truthy (OPENAI_CODEX_AUTH env) = true ->
    error_body_of r401 <> JNull ->
    (w_refreshAccessToken w env = Val None
     \/ exists t retryResponse,
          w_refreshAccessToken w env = Val (Some t)
          /\ w_fetch w 1 (retry_request sh auth t) = Val retryResponse
          /\ ok retryResponse = false) ->
    fst (run w env model inputItems options)
    = Val (mkResult None
             (Some (error_response
                      (match message_field (error_body_of r401) with
                       | Some m => if json_truthy m then m else JStr "Upstream error"
                       | None => JStr "Upstream error"
                       end)
                      401))).
Proof.
  intros w env model inputItems options auth r401 sh
         Hauth Hcreds Hfirst H401 Hconf Hbody Hfail.
  assert (Hnok : ok r401 = false) by (unfold ok; rewrite H401; reflexivity).
  assert (Happ : refresh_applies env r401 = true)
    by (unfold refresh_applies; rewrite H401, Hconf; reflexivity).
  assert (Hmir : mirrored_failure r401
                 = mkResult None
                     (Some (error_response (surfaced_message (error_body_of r401)) 401))).
  { unfold mirrored_failure.
    rewrite (upstream_error_message_value Hbody), H401. reflexivity. }
  rewrite run_is_tree, Hauth, Hcreds.
  unfold dispatch_tree. fold sh. cbv zeta.
  rewrite Hfirst, Hnok, Happ.
  destruct Hfail as [Hnone | (t & r2 & Hsome & Hretry & Hnok2)].
  - rewrite Hnone. cbn [fst]. rewrite Hmir. reflexivity.
  - rewrite Hsome, Hretry, Hnok2. cbn [fst]. rewrite Hmir. reflexivity.
Qed.

Module Unrecovered.

(** The first send answered 401 with [body], the refresh returning
    nothing. *)
Definition world (body : JsResult Json) : World :=
  Scenario.world (Val Scenario.auth) (Val (Scenario.unauthorized body))
                 (Val None) (Val Scenario.accepted).

Definition outcome (body : JsResult Json) : JsResult Result :=
  fst (run (world body) Scenario.env "gpt-5" [] None).

End Unrecovered.

Lemma unrecovered_401_reports_original_witness :
  Unrecovered.outcome (Scenario.body_with_message (JStr "token expired"))
  = Val (mkResult None (Some (error_response (JStr "token expired") 401))).
Proof.
  apply (@unrecovered_401_reports_original
           (Unrecovered.world (Scenario.body_with_message (JStr "token expired")))
           Scenario.env "gpt-5" [] None Scenario.auth
           (Scenario.unauthorized (Scenario.body_with_message (JStr "token expired"))));
    try reflexivity.
  - discriminate.
  - left. reflexivity.
Defined.

(** C3, as stated, fails where the original body holds an empty
    [error.message]: the field is present, yet the message returned is
    the generic text and not the field's value. *)
Lemma empty_message_is_replaced :
  message_field
    (error_body_of (Scenario.unauthorized (Scenario.body_with_message (JStr ""))))
  = Some (JStr "")
  /\ Unrecovered.outcome (Scenario.body_with_message (JStr ""))
     = Val (mkResult None (Some (error_response (JStr "Upstream error") 401)))
  /\ Unrecovered.outcome (Scenario.body_with_message (JStr ""))
     <> Val (mkResult None (Some (error_response (JStr "") 401))).
Proof.
  split; [reflexivity |].
  split; [vm_compute; reflexivity |].
  vm_compute. discriminate.
Qed.

(** A 401 whose body is the JSON value [null]: reading [error] off it
    throws inside the guarded region, and the handler reports status
    502. *)
Example null_body_reported_as_502 :
  Unrecovered.outcome (Val JNull)
  = Val (mkResult None
           (Some (error_response
                    (JStr "Upstream ChatGPT request failed: Cannot read properties of null (reading 'error')")
                    502))).
Proof. vm_compute. reflexivity. Qed.

(* ================================================================= *)
(** ** Number of sends *)

Lemma refreshes_app (tr tr' : Trace) :
  refreshes (tr ++ tr')%list = (refreshes tr + refreshes tr')%nat.
Proof. unfold refreshes. now rewrite filter_app, length_app. Qed.

Lemma refreshes_prelude env : refreshes (prelude env) = 0%nat.
Proof. unfold prelude, kv_events. destruct (KV env); reflexivity. Qed.

Lemma refreshes_kv env : refreshes (EvGetRefreshedAuth :: kv_events env) = 0%nat.
Proof. unfold kv_events. destruct (KV env); reflexivity. Qed.

Lemma sends_kv env : sends (EvGetRefreshedAuth :: kv_events env) = [].
Proof. unfold kv_events. destruct (KV env); reflexivity. Qed.

Ltac count_events :=
  repeat rewrite sends_app; repeat rewrite refreshes_app;
  repeat rewrite sends_prelude; repeat rewrite refreshes_prelude;
  repeat rewrite sends_kv; repeat rewrite refreshes_kv;
  cbn [sends refreshes filter app List.length Nat.add].

(** C4. An invocation sends at most two requests upstream and calls the
    refresh at most once; either it sends at most one request and never
    refreshes, or the first answer had status exactly 401 and the
    refresh mechanism is configured. *)
Theorem at_most_one_retry :
  forall w env model inputItems options,
    let tr := snd (run w env model inputItems options) in
    ((List.length (sends tr) <= 2)%nat /\ (refreshes tr <= 1)%nat)
    /\ (((List.length (sends tr) <= 1)%nat /\ refreshes tr = 0%nat)
        \/ exists auth r,
             w_getRefreshedAuth w env = Val auth
             /\ w_fetch w 0
                  (initial_request
                     (shape w env model inputItems (options_of options)
                        (base_instructions_of w)) auth) = Val r
             /\ status r = 401
             /\ ostr_truthy (OPENAI_CODEX_AUTH env) = true
             /\ refreshes tr = 1%nat).
Proof.
  intros w env model inputItems options tr. subst tr.
  rewrite run_is_tree.
  destruct (w_getRefreshedAuth w env) as [auth|e] eqn:Hauth.
  2:{ cbn. split; [lia | left; lia]. }
  destruct (credentials_missing auth).
  { cbn [snd]. count_events. split; [lia | left; lia]. }
  unfold dispatch_tree. cbv zeta.
  destruct (w_fetch w 0 _) as [r|e] eqn:Hfirst.
  2:{ cbn [snd]. count_events. split; [lia | left; lia]. }
  destruct (ok r).
  { cbn [snd]. count_events. split; [lia | left; lia]. }
  destruct (refresh_applies env r) eqn:Happ.
  2:{ cbn [snd]. count_events. split; [lia | left; lia]. }
  unfold refresh_applies in Happ. apply andb_true_iff in Happ.
  destruct Happ as [H401 Hconf]. apply Z.eqb_eq in H401.
  assert (Hright : forall tr', refreshes tr' = 1%nat ->
            exists auth0 r0,
              Val auth = Val auth0
              /\ w_fetch w 0
                   (initial_request
                      (shape w env model inputItems (options_of options)
                         (base_instructions_of w)) auth0) = Val r0
              /\ status r0 = 401
              /\ ostr_truthy (OPENAI_CODEX_AUTH env) = true
              /\ refreshes tr' = 1%nat).
  { intros tr' Htr'. exists auth, r. repeat split; assumption. }
  destruct (w_refreshAccessToken w env) as [[t|]|e].
  - destruct (w_fetch w 1 _) as [r'|e'].
    + destruct (ok r'); cbn [snd]; (split; [count_events; lia |]);
        right; apply Hright; count_events; reflexivity.
    + cbn [snd]. split; [count_events; lia |].
      right; apply Hright; count_events; reflexivity.
  - cbn [snd]. split; [count_events; lia |].
    right; apply Hright; count_events; reflexivity.
  - cbn [snd]. split; [count_events; lia |].
    right; apply Hright; count_events; reflexivity.
Qed.

(** On a 401 answered by a successful refresh and a second 401, two
    requests were sent and no third. *)
Example two_sends_then_give_up :
  List.length
    (sends (snd (run (Scenario.world (Val Scenario.auth)
                        (Val (Scenario.unauthorized (Val (JObj []))))
                        (Val (Some Scenario.tokens))
                        (Val (Scenario.unauthorized (Val (JObj [])))))
                     Scenario.env "gpt-5" [] None)))
  = 2%nat.
Proof. vm_compute. reflexivity. Qed.

(* ================================================================= *)
(** ** Shape of the result *)

(** Exactly one of the two components is present. *)
Definition exactly_one (res : Result) : bool :=
  match response res, error res with
  | Some _, None | None, Some _ => true
  | _, _ => false
  end.

Inductive ErrorKind : Type :=
| MissingCredentials
| GuardedException (e : Thrown)
| UpstreamRejected (r : Response).

(** Status and message of the error response of each kind. *)
Definition error_of_kind (k : ErrorKind) : NewResponse :=
  match k with
  | MissingCredentials =>
      error_response (JStr "Missing ChatGPT credentials. Run 'codex login' first") 401
  | GuardedException e =>
      error_response (JStr ("Upstream ChatGPT request failed: " ++ thrown_text e)) 502
  | UpstreamRejected r =>
      error_response (surfaced_message (error_body_of r)) (status r)
  end.

Lemma mirrored_failure_kind (r : Response) :
  exists k, mirrored_failure r = mkResult None (Some (error_of_kind k))
            /\ match k with
               | MissingCredentials => False
               | GuardedException _ => True
               | UpstreamRejected r' => r' = r
               end.
Proof.
  unfold mirrored_failure.
  destruct (error_body_of r) as [| b | n | s | items | fs] eqn:Hbody.
  1:{ rewrite upstream_error_message_null.
      eexists (GuardedException _). split; [reflexivity | exact I]. }
  all: rewrite upstream_error_message_value by discriminate;
       exists (UpstreamRejected r); cbn [error_of_kind]; rewrite Hbody;
       split; reflexivity.
Qed.

Section Classification.

Variables (w : World) (env : Env) (model : string)
          (inputItems : list InputItem) (options : option Options) (auth : Auth).

(** What a result can be, for given credentials. *)
Definition classified (res : Result) : Prop :=
  exactly_one res = true
  /\ ((exists r, res = mkResult (Some r) None /\ ok r = true)
      \/ (exists k,
            res = mkResult None (Some (error_of_kind k))
            /\ match k with
               | MissingCredentials => credentials_missing auth = true
               | GuardedException _ => credentials_missing auth = false
               | UpstreamRejected r =>
                   w_fetch w 0
                     (initial_request
                        (shape w env model inputItems (options_of options)
                           (base_instructions_of w)) auth) = Val r
                   /\ ok r = false
               end)).

Lemma classified_missing :
  credentials_missing auth = true -> classified missing_credentials.
Proof.
  intros H. split; [reflexivity |].
  right. exists MissingCredentials. split; [reflexivity | exact H].
Qed.

Lemma classified_exception e :
  credentials_missing auth = false -> classified (transport_failure e).
Proof.
  intros H. split; [reflexivity |].
  right. exists (GuardedException e). split; [reflexivity | exact H].
Qed.

Lemma classified_success r :
  ok r = true -> classified (mkResult (Some r) None).
Proof.
  intros H. split; [reflexivity |]. left. exists r. split; [reflexivity | exact H].
Qed.

Lemma classified_mirrored r :
  credentials_missing auth = false ->
  w_fetch w 0
    (initial_request
       (shape w env model inputItems (options_of options)
          (base_instructions_of w)) auth) = Val r ->
  ok r = false ->
  classified (mirrored_failure r).
Proof.
  intros Hcreds Hfirst Hok.
  destruct (mirrored_failure_kind r) as (k & Hk & Hkind). rewrite Hk.
  split; [reflexivity |].
  right. exists k. split; [reflexivity |].
  destruct k as [| e | r']; [contradiction | exact Hcreds |].
  subst r'. split; [exact Hfirst | exact Hok].
Qed.

Lemma run_classified :
  w_getRefreshedAuth w env = Val auth ->
  exists res,
    fst (run w env model inputItems options) = Val res /\ classified res.
Proof.
  intros Hauth. rewrite run_is_tree, Hauth.
  destruct (credentials_missing auth) eqn:Hcreds.
  { eexists. split; [reflexivity | apply classified_missing, Hcreds]. }
  unfold dispatch_tree. cbv zeta.
  destruct (w_fetch w 0 _) as [r|e] eqn:Hfirst.
  2:{ eexists. split; [reflexivity | apply classified_exception, Hcreds]. }
  destruct (ok r) eqn:Hok.
  { eexists. split; [reflexivity | apply classified_success, Hok]. }
  assert (Hmir : classified (mirrored_failure r))
    by (apply classified_mirrored; assumption).
  destruct (refresh_applies env r).
  2:{ eexists. split; [reflexivity | exact Hmir]. }
  destruct (w_refreshAccessToken w env) as [[t|]|e].
  - destruct (w_fetch w 1 _) as [r'|e'].
    + destruct (ok r') eqn:Hok'.
      * eexists. split; [reflexivity | apply classified_success, Hok'].
      * eexists. split; [reflexivity | exact Hmir].
    + eexists. split; [reflexivity | apply classified_exception, Hcreds].
  - eexists. split; [reflexivity | exact Hmir].
  - eexists. split; [reflexivity | apply classified_exception, Hcreds].
Qed.

End Classification.

(** C6, as the code has it. Whenever the credential accessor returns,
    the invocation returns a pair with exactly one component present.
    A success carries a 2xx response. An error is the JSON body
    [{"error": {"message": m}}] with the JSON content type, of one of
    three kinds: status 401 with the missing-credentials text; status
    502 with the text of an exception caught by the handler of the
    guarded region, such as a failing send or a failing refresh; or the
    status of the first upstream answer, which was not 2xx, with [m]
    the truthy [error.message] of its body, of whatever JSON type, or
    the generic text. *)
Theorem result_has_one_component :
  forall w env model inputItems options auth,
    w_getRefreshedAuth w env = Val auth ->
    exists res,
      fst (run w env model inputItems options) = Val res
      /\ exactly_one res = true
      /\ ((exists r, res = mkResult (Some r) None /\ ok r = true)
          \/ (exists k,
                res = mkResult None (Some (error_of_kind k))
                /\ match k with
                   | MissingCredentials => credentials_missing auth = true
                   | GuardedException _ => credentials_missing auth = false
                   | UpstreamRejected r =>
                       w_fetch w 0
                         (initial_request
                            (shape w env model inputItems (options_of options)
                               (base_instructions_of w)) auth) = Val r
                       /\ ok r = false
                   end)).
Proof.
  intros w env model inputItems options auth Hauth.
  exact (@run_classified w env model inputItems options auth Hauth).
Qed.

Lemma result_has_one_component_witness :
  exists res,
    Unrecovered.outcome (Scenario.body_with_message (JStr "token expired")) = Val res
    /\ exactly_one res = true.
Proof.
  destruct (@result_has_one_component
              (Unrecovered.world (Scenario.body_with_message (JStr "token expired")))
              Scenario.env "gpt-5" [] None Scenario.auth eq_refl)
    as (res & Hres & Hone & _).
  exists res. split; [exact Hres | exact Hone].
Defined.

(** C6, as stated, fails in two ways. An upstream [error.message] that
    is a number is mirrored as a number, so the error body is not of
    the shape with a string message; and an exception raised by the
    credential accessor, which is called outside the guarded region,
    leaves the invocation as it was thrown. *)
Lemma message_need_not_be_string_nor_exception_caught :
  (Unrecovered.outcome (Scenario.body_with_message (JNum 42))
   = Val (mkResult None (Some (error_response (JNum 42) 401)))
   /\ forall s, error_response (JNum 42) 401 <> error_response (JStr s) 401)
  /\ fst (run (Scenario.world (Throw (ErrorInstance "KV unavailable"))
                 (Val Scenario.accepted) (Val None) (Val Scenario.accepted))
              Scenario.env "gpt-5" [] None)
     = Throw (ErrorInstance "KV unavailable").
Proof.
  split; [split |].
  - vm_compute. reflexivity.
  - intros s. unfold error_response, error_payload. cbn. discriminate.
  - vm_compute. reflexivity.
Qed.

(* ================================================================= *)
(** ** The shaped body *)

(** A field of a JSON object. *)
Definition body_field (k : string) (body : Json) : JsValue :=
  match body with
  | JObj fs => assoc k fs
  | _ => None
  end.

(** The declared shape of a structured choice:
    [{type: string, function: {name: string}}]. *)
Definition well_formed_choice (v : Json) : bool :=
  match body_field "type" v, body_field "function" v with
  | Some (JStr _), Some f =>
      match body_field "name" f with
      | Some (JStr _) => true
      | _ => false
      end
  | _, _ => false
  end.

Lemma primary_body w env model inputItems o base :
  ostr_truthy (ollamaPath o) = false ->
  requestBody (shape w env model inputItems o base)
  = Some (JSON_stringify
            (responses_body (w_normalizeModelName w model (DEBUG_MODEL env))
               inputItems o (include_of (reasoningParam o))
               (Some (generateSessionId (instructions o) inputItems)) base)).
Proof. intros H. unfold shape. cbn [requestBody]. rewrite H. reflexivity. Qed.

(** Every request sent in an invocation carries the URL and the body
    computed by [shape]. *)
Lemma sends_are_shaped w env model inputItems options req :
  In req (sends (snd (run w env model inputItems options))) ->
  req_url req
  = requestUrl (shape w env model inputItems (options_of options) (base_instructions_of w))
  /\ req_body req
     = requestBody (shape w env model inputItems (options_of options) (base_instructions_of w)).
Proof.
  rewrite run_is_tree.
  destruct (w_getRefreshedAuth w env) as [auth|e]; [| intros []].
  destruct (credentials_missing auth).
  { cbn [snd]. rewrite sends_kv. intros []. }
  unfold dispatch_tree. cbv zeta.
  set (sh := shape w env model inputItems (options_of options) (base_instructions_of w)).
  assert (H1 : forall r, In r [initial_request sh auth] ->
                         req_url r = requestUrl sh /\ req_body r = requestBody sh).
  { intros r [<- | []]. split; reflexivity. }
  assert (H2 : forall t r, In r [initial_request sh auth; retry_request sh auth t] ->
                           req_url r = requestUrl sh /\ req_body r = requestBody sh).
  { intros t r [<- | [<- | []]]; split; reflexivity. }
  destruct (w_fetch w 0 _) as [r|e]; [| cbn [snd]; count_events; apply H1].
  destruct (ok r); [cbn [snd]; count_events; apply H1 |].
  destruct (refresh_applies env r); [| cbn [snd]; count_events; apply H1].
  destruct (w_refreshAccessToken w env) as [[t|]|e];
    [| cbn [snd]; count_events; apply H1 | cbn [snd]; count_events; apply H1].
  destruct (w_fetch w 1 _) as [r'|e']; [| cbn [snd]; count_events; apply H2].
  destruct (ok r'); cbn [snd]; count_events; apply H2.
Qed.

(** C7, as the code has it. For the primary backend the body sent is
    the serialisation of an object whose [tool_choice] is the caller's
    value when that value is the string "auto", the string "none", or
    any object or array, whatever it holds; and is "auto" for every
    other value: none supplied, [null], another string, a number, a
    boolean. *)
Theorem tool_choice_passes_any_object :
  forall w env model inputItems o base,
    ostr_truthy (ollamaPath o) = false ->
    exists body,
      requestBody (shape w env model inputItems o base) = Some (JSON_stringify body)
      /\ body_field "tool_choice" body
         = Some (match toolChoice o with
                 | Some (JStr s) =>
                     if String.eqb s "auto" || String.eqb s "none"
                     then JStr s else JStr "auto"
                 | Some (JObj fs) => JObj fs
                 | Some (JArr items) => JArr items
                 | _ => JStr "auto"
                 end).
Proof.
  intros w env model inputItems o base Hprimary.
  eexists. split; [apply primary_body, Hprimary |].
  cbn [body_field responses_body app assoc String.eqb Ascii.eqb Bool.eqb].
  f_equal. unfold tool_choice_of.
  destruct (toolChoice o) as [[| b | n | s | items | fs]|]; try reflexivity.
  - destruct b; reflexivity.
  - cbn [truthy json_truthy json_is_literal typeof_object is_undefined orb].
    destruct (negb (n =? 0)); reflexivity.
  - cbn [truthy json_truthy json_is_literal typeof_object is_undefined json_or].
    destruct s as [|c s]; [reflexivity |].
    cbn [str_truthy andb]. rewrite !orb_false_r.
    destruct (String.eqb (String c s) "auto" || String.eqb (String c s) "none");
      reflexivity.
Qed.

Module Choice.

Definition with_choice (v : JsValue) : Options :=
  mkOptions None None v None None None None.

Definition function_foo : Json :=
  JObj [("type", JStr "function"); ("function", JObj [("name", JStr "foo")])].

Definition chosen (v : JsValue) : JsValue :=
  body_field "tool_choice"
    (responses_body "gpt-5" [] (with_choice v) (include_of None)
       (Some (generateSessionId None [])) fallback_instructions).

End Choice.

Lemma tool_choice_passes_any_object_witness :
  exists body,
    requestBody (shape (Unrecovered.world (Val JNull)) Scenario.env "gpt-5" []
                   (Choice.with_choice (Some Choice.function_foo)) fallback_instructions)
    = Some (JSON_stringify body)
    /\ body_field "tool_choice" body = Some Choice.function_foo.
Proof.
  apply (@tool_choice_passes_any_object (Unrecovered.world (Val JNull)) Scenario.env
           "gpt-5" [] (Choice.with_choice (Some Choice.function_foo))
           fallback_instructions).
  reflexivity.
Defined.

(** C7, as stated, fails on an object that is not a well-formed
    function choice: it is neither of the two literals nor well formed,
    yet it is passed on unchanged instead of being replaced by "auto". *)
Lemma malformed_object_is_passed_on :
  well_formed_choice (JObj [("type", JStr "bogus")]) = false
  /\ Choice.chosen (Some (JObj [("type", JStr "bogus")]))
     = Some (JObj [("type", JStr "bogus")])
  /\ Choice.chosen (Some (JObj [("type", JStr "bogus")])) <> Some (JStr "auto")
  /\ map req_body
       (sends (snd (run (Scenario.world (Val Scenario.auth) (Val Scenario.accepted)
                           (Val None) (Val Scenario.accepted))
                        Scenario.env "gpt-5" []
                        (Some (Choice.with_choice (Some (JObj [("type", JStr "bogus")])))))))
     = [Some (JSON_stringify
                (responses_body "gpt-5" []
                   (Choice.with_choice (Some (JObj [("type", JStr "bogus")])))
                   (include_of None) (Some (generateSessionId None []))
                   fallback_instructions))].
Proof.
  split; [reflexivity |].
  split; [reflexivity |].
  split; [discriminate |].
  vm_compute. reflexivity.
Qed.

(** The two cases the specification tests. *)
Example tool_choice_examples :
  well_formed_choice Choice.function_foo = true
  /\ Choice.chosen (Some Choice.function_foo) = Some Choice.function_foo
  /\ Choice.chosen (Some (JStr "bogus")) = Some (JStr "auto")
  /\ Choice.chosen None = Some (JStr "auto")
  /\ Choice.chosen (Some (JStr "none")) = Some (JStr "none").
Proof. repeat split; reflexivity. Qed.

(** C8. For the primary backend the body sent is the serialisation of
    an object whose [include] array holds
    "reasoning.encrypted_content" exactly once when no reasoning
    configuration is supplied or its effort is anything but "none"
    (absent included), and not at all when the effort is "none". *)
Theorem include_encrypted_content :
  forall w env model inputItems o base,
    ostr_truthy (ollamaPath o) = false ->
    exists body include,
      requestBody (shape w env model inputItems o base) = Some (JSON_stringify body)
      /\ body_field "include" body = Some (JArr (map JStr include))
      /\ count_occ string_dec include "reasoning.encrypted_content"
         = match reasoningParam o with
           | Some r =>
               match effort r with
               | Some e => if String.eqb e "none" then 0%nat else 1%nat
               | None => 1%nat
               end
           | None => 1%nat
           end.
Proof.
  intros w env model inputItems o base Hprimary.
  exists (responses_body (w_normalizeModelName w model (DEBUG_MODEL env))
            inputItems o (include_of (reasoningParam o))
            (Some (generateSessionId (instructions o) inputItems)) base),
         (include_of (reasoningParam o)).
  split; [apply primary_body, Hprimary |].
  split; [reflexivity |].
  unfold include_of.
  destruct (reasoningParam o) as [r|]; [| reflexivity].
  destruct (effort r) as [e|]; [| reflexivity].
  cbn [is_literal]. destruct (String.eqb e "none"); reflexivity.
Qed.

Lemma include_encrypted_content_witness :
  exists body include,
    requestBody (shape (Unrecovered.world (Val JNull)) Scenario.env "gpt-5" []
                   (mkOptions None None None None
                      (Some (mkReasoningParam (Some "none") (Some "auto"))) None None)
                   fallback_instructions)
    = Some (JSON_stringify body)
    /\ body_field "include" body = Some (JArr (map JStr include))
    /\ count_occ string_dec include "reasoning.encrypted_content" = 0%nat.
Proof.
  apply (@include_encrypted_content (Unrecovered.world (Val JNull)) Scenario.env
           "gpt-5" []
           (mkOptions None None None None
              (Some (mkReasoningParam (Some "none") (Some "auto"))) None None)
           fallback_instructions).
  reflexivity.
Defined.

(* ================================================================= *)
(** * Further properties of the code *)

(* ================================================================= *)
(** ** Instructions by model family *)

(** The text a prompt URL yields in a world, when the fetch answers with
    a 2xx status and a readable body. *)
Definition prompt_of (w : World) (url : string) : option string :=
  match w_fetch_prompt w url with
  | Val r => if ok r then match text r with Val t => Some t | Throw _ => None end
             else None
  | Throw _ => None
  end.

(** The URLs of the prompt fetches recorded in a trace. *)
Fixpoint prompt_fetches (tr : Trace) : list string :=
  match tr with
  | [] => []
  | EvFetchPrompt url :: rest => url :: prompt_fetches rest
  | _ :: rest => prompt_fetches rest
  end.

Lemma base_instructions_of_prompt w :
  base_instructions_of w
  = match prompt_of w base_prompt_url with
    | Some t => t
    | None => fallback_instructions
    end.
Proof.
  unfold base_instructions_of, prompt_of.
  destruct (w_fetch_prompt w base_prompt_url) as [r|e]; [|reflexivity].
  destruct (ok r); [|reflexivity]. destruct (text r); reflexivity.
Qed.

Lemma getGpt5CodexInstructions_run w :
  getGpt5CodexInstructions w []
  = match prompt_of w gpt5_codex_prompt_url with
    | Some t => (Val t, [EvFetchPrompt gpt5_codex_prompt_url])
    | None => (Val (base_instructions_of w),
               [EvFetchPrompt gpt5_codex_prompt_url; EvFetchPrompt base_prompt_url])
    end.
Proof.
  unfold getGpt5CodexInstructions, prompt_of, try_catch, bind, call, lift.
  cbn [app].
  destruct (w_fetch_prompt w gpt5_codex_prompt_url) as [r|e].
  - destruct (ok r); cbn [negb].
    + destruct (text r); [reflexivity | apply getBaseInstructions_run].
    + apply getBaseInstructions_run.
  - apply getBaseInstructions_run.
Qed.

(** [getInstructionsForModel] never rejects.  It fetches at most two
    prompts: the base prompt alone for a model outside the codex
    family; the codex prompt for a model of that family, followed by
    the base prompt only when the codex prompt could not be had. *)
Theorem getInstructionsForModel_never_rejects :
  forall w model,
    (exists s, fst (getInstructionsForModel w model []) = Val s)
    /\ prompt_fetches (snd (getInstructionsForModel w model []))
       = if shouldUseGpt5CodexInstructions model
         then match prompt_of w gpt5_codex_prompt_url with
              | Some _ => [gpt5_codex_prompt_url]
              | None => [gpt5_codex_prompt_url; base_prompt_url]
              end
         else [base_prompt_url].
Proof.
  intros w model. unfold getInstructionsForModel.
  destruct (shouldUseGpt5CodexInstructions model).
  - rewrite getGpt5CodexInstructions_run.
    destruct (prompt_of w gpt5_codex_prompt_url) as [t|]; cbn [fst snd];
      (split; [eexists; reflexivity | reflexivity]).
  - rewrite getBaseInstructions_run. cbn [fst snd app].
    split; [eexists; reflexivity | reflexivity].
Qed.

(** The text returned follows a chain of fallbacks: for a model of the
    codex family the codex prompt, else the base prompt, else the
    built-in text; for any other model the base prompt, else the
    built-in text. *)
Theorem getInstructionsForModel_fallback_chain :
  forall w model,
    fst (getInstructionsForModel w model [])
    = Val (match (if shouldUseGpt5CodexInstructions model
                  then prompt_of w gpt5_codex_prompt_url else None),
                 prompt_of w base_prompt_url with
           | Some codex, _ => codex
           | None, Some base => base
           | None, None => fallback_instructions
           end).
Proof.
  intros w model. unfold getInstructionsForModel.
  destruct (shouldUseGpt5CodexInstructions model).
  - rewrite getGpt5CodexInstructions_run, base_instructions_of_prompt.
    destruct (prompt_of w gpt5_codex_prompt_url); reflexivity.
  - rewrite getBaseInstructions_run, base_instructions_of_prompt. reflexivity.
Qed.

Lemma prefix_iff_append (p m : string) :
  String.prefix p m = true <-> exists s, m = p ++ s.
Proof.
  revert m. induction p as [|c p IH]; intros m.
  - split; [intros _; exists m; reflexivity | intros _; destruct m; reflexivity].
  - destruct m as [|d m]; cbn [String.prefix].
    + split; [discriminate | intros [s Hs]; discriminate Hs].
    + destruct (Ascii.ascii_dec c d) as [->|Hcd].
      * rewrite IH. split; intros [s Hs]; exists s.
        -- cbn. now rewrite Hs.
        -- cbn in Hs. now inversion Hs.
      * split; [discriminate |].
        intros [s Hs]. cbn in Hs. inversion Hs. congruence.
Qed.

(** A model is of the codex family exactly when its name starts with
    "gpt-5-codex" or with "codex-". *)
Theorem shouldUseGpt5CodexInstructions_iff :
  forall model,
    shouldUseGpt5CodexInstructions model = true
    <-> (exists s, model = "gpt-5-codex" ++ s) \/ (exists s, model = "codex-" ++ s).
Proof.
  intros model. unfold shouldUseGpt5CodexInstructions.
  rewrite orb_true_iff, !prefix_iff_append. reflexivity.
Qed.

Lemma string_app_assoc (a b c : string) : (a ++ b) ++ c = a ++ (b ++ c).
Proof. induction a as [|x a IH]; cbn; [reflexivity | now rewrite IH]. Qed.

(** Appending to the name of a codex-family model gives a name of the
    codex family: a preset or dated variant of such a model is served
    the same instructions. *)
Theorem codex_family_closed_under_suffix :
  forall model suffix,
    shouldUseGpt5CodexInstructions model = true ->
    shouldUseGpt5CodexInstructions (model ++ suffix) = true.
Proof.
  intros model suffix H. apply shouldUseGpt5CodexInstructions_iff in H.
  apply shouldUseGpt5CodexInstructions_iff.
  destruct H as [[s ->] | [s ->]]; [left | right];
    exists (s ++ suffix); apply string_app_assoc.
Qed.

Lemma codex_family_closed_under_suffix_witness :
  shouldUseGpt5CodexInstructions ("codex-mini" ++ "-latest") = true.
Proof.
  apply (@codex_family_closed_under_suffix "codex-mini" "-latest"). reflexivity.
Defined.

(* ================================================================= *)
(** ** Model presets *)

Lemma preset_lookup_iff i p :
  Models.getModelPreset i = Some p
  <-> In p Models.MODEL_PRESETS /\ Models.id p = i.
Proof.
  unfold Models.getModelPreset. split.
  - intros H. apply find_some in H. destruct H as [Hin Heq].
    split; [exact Hin | now apply String.eqb_eq].
  - intros [Hin <-]. cbn in Hin.
    repeat (destruct Hin as [<- | Hin]; [reflexivity |]). contradiction.
Qed.

(** Looking a preset up by an identifier returns a preset of the table
    carrying that identifier, and every preset of the table is found
    under its own identifier: no preset is shadowed by another. *)
Theorem getModelPreset_exact :
  forall i p,
    Models.getModelPreset i = Some p
    <-> In p Models.MODEL_PRESETS /\ Models.id p = i.
Proof. intros i p. apply preset_lookup_iff. Qed.

Lemma preset_test_iff i :
  Models.isModelPreset i = true <-> exists p, Models.getModelPreset i = Some p.
Proof.
  unfold Models.isModelPreset, Models.getModelPreset.
  induction Models.MODEL_PRESETS as [|q l IH]; cbn [existsb find].
  - split; [discriminate | intros [p Hp]; discriminate Hp].
  - destruct (String.eqb (Models.id q) i); cbn [orb].
    + split; [intros _; exists q; reflexivity | reflexivity].
    + exact IH.
Qed.

(** [isModelPreset] answers true exactly for the identifiers
    [getModelPreset] finds. *)
Theorem isModelPreset_iff_found :
  forall i,
    Models.isModelPreset i = true <-> exists p, Models.getModelPreset i = Some p.
Proof. intros i. apply preset_test_iff. Qed.

(** For an identifier that is not a preset, the effort is the default
    given, and "minimal" when none is given. *)
Theorem getReasoningEffortForModel_default :
  forall i d,
    Models.isModelPreset i = false ->
    Models.getReasoningEffortForModel i d
    = match d with Some e => e | None => "minimal" end.
Proof.
  intros i d H. unfold Models.getReasoningEffortForModel.
  destruct (Models.getModelPreset i) as [p|] eqn:Hp; [| reflexivity].
  assert (Models.isModelPreset i = true)
    by (apply preset_test_iff; exists p; exact Hp).
  congruence.
Qed.

Lemma getReasoningEffortForModel_default_witness :
  Models.getReasoningEffortForModel "gpt-4o" None = "minimal".
Proof.
  apply (@getReasoningEffortForModel_default "gpt-4o" None). reflexivity.
Defined.

(** For a preset identifier the default is ignored: the effort is one
    of the four levels, never "none", and the identifier is the
    preset's model, a hyphen, and that effort. *)
Theorem getReasoningEffortForModel_preset :
  forall i d,
    Models.isModelPreset i = true ->
    let e := Models.getReasoningEffortForModel i d in
    In e ["minimal"; "low"; "medium"; "high"]
    /\ e = Models.getReasoningEffortForModel i None
    /\ (i = "gpt-5" ++ "-" ++ e \/ i = "gpt-5-codex" ++ "-" ++ e).
Proof.
  intros i d H e. subst e.
  apply preset_test_iff in H. destruct H as [p Hp].
  unfold Models.getReasoningEffortForModel. rewrite Hp.
  apply preset_lookup_iff in Hp. destruct Hp as [Hin <-].
  cbn in Hin.
  repeat (destruct Hin as [<- | Hin];
          [cbn; repeat split; auto 10 |]).
  contradiction.
Qed.

Lemma getReasoningEffortForModel_preset_witness :
  In (Models.getReasoningEffortForModel "gpt-5-codex-high" (Some "low"))
     ["minimal"; "low"; "medium"; "high"]
  /\ Models.getReasoningEffortForModel "gpt-5-codex-high" (Some "low")
     = Models.getReasoningEffortForModel "gpt-5-codex-high" None
  /\ ("gpt-5-codex-high"
      = "gpt-5" ++ "-" ++ Models.getReasoningEffortForModel "gpt-5-codex-high" (Some "low")
      \/ "gpt-5-codex-high"
         = "gpt-5-codex" ++ "-"
           ++ Models.getReasoningEffortForModel "gpt-5-codex-high" (Some "low")).
Proof.
  apply (@getReasoningEffortForModel_preset "gpt-5-codex-high" (Some "low")).
  reflexivity.
Defined.

(** A preset identifier is served the instructions of its model's
    family. *)
Theorem preset_identifier_keeps_family :
  forall i p,
    Models.getModelPreset i = Some p ->
    shouldUseGpt5CodexInstructions i
    = shouldUseGpt5CodexInstructions (Models.model p).
Proof.
  intros i p H. apply preset_lookup_iff in H. destruct H as [Hin <-].
  cbn in Hin.
  repeat (destruct Hin as [<- | Hin]; [reflexivity |]). contradiction.
Qed.

Lemma preset_identifier_keeps_family_witness :
  shouldUseGpt5CodexInstructions "gpt-5-codex-medium"
  = shouldUseGpt5CodexInstructions "gpt-5-codex".
Proof.
  apply (@preset_identifier_keeps_family "gpt-5-codex-medium"
           (Models.mkPreset "gpt-5-codex-medium" "gpt-5-codex medium"
              "Dynamically adjusts reasoning based on the task"
              "gpt-5-codex" "medium")).
  reflexivity.
Defined.

(* ================================================================= *)
(** ** Other paths of the orchestrator *)

Section Paths.

Variables (w : World) (env : Env) (model : string)
          (inputItems : list InputItem) (options : option Options)
          (auth : Auth).

Let sh : Shaped :=
  shape w env model inputItems (options_of options) (base_instructions_of w).

Hypothesis Hauth : w_getRefreshedAuth w env = Val auth.
Hypothesis Hcreds : credentials_missing auth = false.

Lemma run_with_credentials :
  run w env model inputItems options = dispatch_tree w env sh auth (prelude env).
Proof. rewrite run_is_tree, Hauth, Hcreds. reflexivity. Qed.

(** A first answer with a 2xx status is returned as it is: one request
    sent, no refresh attempted. *)
Theorem first_answer_2xx_is_returned :
  forall r,
    w_fetch w 0 (initial_request sh auth) = Val r ->
    ok r = true ->
    fst (run w env model inputItems options) = Val (mkResult (Some r) None)
    /\ sends (snd (run w env model inputItems options)) = [initial_request sh auth]
    /\ refreshes (snd (run w env model inputItems options)) = 0%nat.
Proof.
  intros r Hfirst Hok. rewrite run_with_credentials.
  unfold dispatch_tree. cbv zeta. rewrite Hfirst, Hok. cbn [fst snd].
  split; [reflexivity |]. split; count_events; reflexivity.
Qed.



(** When the refresh itself rejects after a 401, the result is the 502
    of the handler with the refresh's error text: the original 401 is
    not reported, and nothing is sent again. *)
Theorem refresh_rejection_gives_502 :
  forall r e,
    w_fetch w 0 (initial_request sh auth) = Val r ->
    status r = 401 ->
    ostr_truthy (OPENAI_CODEX_AUTH env) = true ->
    w_refreshAccessToken w env = Throw e ->
    fst (run w env model inputItems options)
    = Val (mkResult None
             (Some (error_response
                      (JStr ("Upstream ChatGPT request failed: " ++ thrown_text e))
                      502)))
    /\ sends (snd (run w env model inputItems options)) = [initial_request sh auth].
Proof.
  intros r e Hfirst H401 Hconf Hrefresh. rewrite run_with_credentials.
  assert (Hnok : ok r = false) by (unfold ok; rewrite H401; reflexivity).
  assert (Happ : refresh_applies env r = true)
    by (unfold refresh_applies; rewrite H401, Hconf; reflexivity).
  unfold dispatch_tree. cbv zeta. rewrite Hfirst, Hnok, Happ, Hrefresh.
  cbn [fst snd]. split; [reflexivity | count_events; reflexivity].
Qed.

(** When the retried request throws, the result is the 502 of the
    handler with that error's text, after two requests. *)
Theorem retry_throw_gives_502 :
  forall r t e,
    w_fetch w 0 (initial_request sh auth) = Val r ->
    status r = 401 ->
    ostr_truthy (OPENAI_CODEX_AUTH env) = true ->
    w_refreshAccessToken w env = Val (Some t) ->
    w_fetch w 1 (retry_request sh auth t) = Throw e ->
    fst (run w env model inputItems options)
    = Val (mkResult None
             (Some (error_response
                      (JStr ("Upstream ChatGPT request failed: " ++ thrown_text e))
                      502)))
    /\ sends (snd (run w env model inputItems options))
       = [initial_request sh auth; retry_request sh auth t].
Proof.
  intros r t e Hfirst H401 Hconf Hrefresh Hretry. rewrite run_with_credentials.
  assert (Hnok : ok r = false) by (unfold ok; rewrite H401; reflexivity).
  assert (Happ : refresh_applies env r = true)
    by (unfold refresh_applies; rewrite H401, Hconf; reflexivity).
  unfold dispatch_tree. cbv zeta. rewrite Hfirst, Hnok, Happ, Hrefresh, Hretry.
  cbn [fst snd]. split; [reflexivity | count_events; reflexivity].
Qed.

End Paths.

Module PathScenario.



Definition expired : Response :=
  Scenario.unauthorized (Scenario.body_with_message (JStr "token expired")).

(** A world with credentials in which the first send is answered by
    [first]. *)
Definition answering (first : Response) : World :=
  Scenario.world (Val Scenario.auth) (Val first) (Val None) (Val Scenario.accepted).

Definition refresh_down : World :=
  Scenario.world (Val Scenario.auth) (Val expired)
                 (Throw (ErrorInstance "refresh endpoint unreachable"))
                 (Val Scenario.accepted).

Definition retry_down : World :=
  Scenario.world (Val Scenario.auth) (Val expired) (Val (Some Scenario.tokens))
                 (Throw (NonError "socket hang up")).

Definition outcome (w : World) : JsResult Result :=
  fst (run w Scenario.env "gpt-5" [] None).

End PathScenario.

Lemma first_answer_2xx_is_returned_witness :
  PathScenario.outcome (PathScenario.answering Scenario.accepted)
  = Val (mkResult (Some Scenario.accepted) None).
Proof.
  apply (@first_answer_2xx_is_returned
           (PathScenario.answering Scenario.accepted) Scenario.env "gpt-5" [] None
           Scenario.auth eq_refl eq_refl Scenario.accepted); reflexivity.
Defined.



Lemma refresh_rejection_gives_502_witness :
  PathScenario.outcome PathScenario.refresh_down
  = Val (mkResult None
           (Some (error_response
                    (JStr "Upstream ChatGPT request failed: refresh endpoint unreachable")
                    502))).
Proof.
  apply (@refresh_rejection_gives_502
           PathScenario.refresh_down Scenario.env "gpt-5" [] None
           Scenario.auth eq_refl eq_refl PathScenario.expired
           (ErrorInstance "refresh endpoint unreachable")); reflexivity.
Defined.

Lemma retry_throw_gives_502_witness :
  PathScenario.outcome PathScenario.retry_down
  = Val (mkResult None
           (Some (error_response
                    (JStr "Upstream ChatGPT request failed: socket hang up") 502))).
Proof.
  apply (@retry_throw_gives_502
           PathScenario.retry_down Scenario.env "gpt-5" [] None
           Scenario.auth eq_refl eq_refl PathScenario.expired Scenario.tokens
           (NonError "socket hang up")); reflexivity.
Defined.

(* ================================================================= *)
(** ** The debug read of the KV store *)

(** A world in which the KV read answers [k] instead. *)
Definition with_KV_get (w : World) (k : JsResult JsValue) : World :=
  mkWorld (w_getRefreshedAuth w) k (w_fetch_prompt w) (w_normalizeModelName w)
          (w_fetch w) (w_refreshAccessToken w).

(** Whatever the KV store answers to the debug read, a value, nothing,
    or an exception, the invocation runs the same: same result, same
    calls in the same order. *)
Theorem kv_debug_read_is_inert :
  forall w k env model inputItems options,
    run (with_KV_get w k) env model inputItems options
    = run w env model inputItems options.
Proof.
  intros w k env model inputItems options.
  rewrite !run_is_tree. reflexivity.
Qed.

(* ================================================================= *)
(** ** Headers *)

Lemma get_set_header_same k v h : get_header k (set_header k v h) = Some v.
Proof.
  induction h as [|[k' v'] h IH]; cbn [set_header get_header].
  - now rewrite String.eqb_refl.
  - destruct (String.eqb k k') eqn:E; cbn [get_header].
    + now rewrite String.eqb_refl.
    + rewrite E. exact IH.
Qed.

Lemma get_set_header_other k k' v h :
  k <> k' -> get_header k (set_header k' v h) = get_header k h.
Proof.
  intros Hne. apply String.eqb_neq in Hne.
  induction h as [|[k0 v0] h IH]; cbn [set_header get_header].
  - now rewrite Hne.
  - destruct (String.eqb k' k0) eqn:E; cbn [get_header].
    + apply String.eqb_eq in E. subst k0. now rewrite Hne.
    + now rewrite IH.
Qed.

Lemma truthy_of_length (s : string) (n : nat) :
  String.length s = S n -> str_truthy s = true.
Proof. destruct s; [discriminate | reflexivity]. Qed.

Lemma generateSessionId_length i x : String.length (generateSessionId i x) = 64%nat.
Proof.
  rewrite generateSessionId_refines. unfold fingerprint_spec. cbv zeta.
  rewrite concat_two_digit_length by apply digest_bytes.
  now rewrite digest_length.
Qed.

(** For the primary backend, the [session_id] header of the first send
    and of the retry, and the [prompt_cache_key] of the body, are all
    the fingerprint of the instructions and the input; the header is
    never left out, the fingerprint being non-empty. *)
Theorem session_id_matches_prompt_cache_key :
  forall w env model inputItems o base auth t,
    ostr_truthy (ollamaPath o) = false ->
    let sh := shape w env model inputItems o base in
    let fp := generateSessionId (instructions o) inputItems in
    get_header "session_id" (initial_headers sh auth) = Some fp
    /\ get_header "session_id" (retry_headers sh auth t) = Some fp
    /\ exists body,
         requestBody sh = Some (JSON_stringify body)
         /\ body_field "prompt_cache_key" body = Some (JStr fp).
Proof.
  intros w env model inputItems o base auth t Hprimary sh fp.
  assert (Htruthy : str_truthy fp = true)
    by (apply (@truthy_of_length fp 63), generateSessionId_length).
  assert (Hsid : sessionId sh = Some fp)
    by (subst sh; unfold shape; cbn [sessionId]; rewrite Hprimary; reflexivity).
  assert (Hollama : isOllamaRequest sh = false)
    by (subst sh; unfold shape; cbn [isOllamaRequest]; exact Hprimary).
  unfold initial_headers, retry_headers, shape_headers.
  rewrite Hollama, Hsid. cbn [negb ostr_truthy str_of]. rewrite Htruthy.
  split; [apply get_set_header_same |].
  split; [apply get_set_header_same |].
  eexists. split; [subst sh; apply primary_body, Hprimary | reflexivity].
Qed.

Lemma session_id_matches_prompt_cache_key_witness :
  get_header "session_id"
    (initial_headers
       (shape (PathScenario.answering Scenario.accepted) Scenario.env "gpt-5" []
              no_options fallback_instructions)
       Scenario.auth)
  = Some (generateSessionId None []).
Proof.
  apply (@session_id_matches_prompt_cache_key
           (PathScenario.answering Scenario.accepted) Scenario.env "gpt-5" []
           no_options fallback_instructions Scenario.auth Scenario.tokens).
  reflexivity.
Defined.

(** For the primary backend the retry's headers differ from those of
    the first send at most in two places: [Authorization] carries the
    refreshed token, and [chatgpt-account-id] the refreshed account
    identifier, or the original one when the refresh gave none. *)
Theorem retry_headers_change_credentials_only :
  forall sh auth t k,
    isOllamaRequest sh = false ->
    get_header "Authorization" (retry_headers sh auth t)
    = Some ("Bearer " ++ str_of (access_token t))
    /\ get_header "chatgpt-account-id" (retry_headers sh auth t)
       = Some (ostr_or (account_id t) (str_of (accountId auth)))
    /\ (k <> "Authorization" -> k <> "chatgpt-account-id" ->
        get_header k (retry_headers sh auth t) = get_header k (initial_headers sh auth)).
Proof.
  intros sh auth t k Hprimary.
  unfold retry_headers, initial_headers, shape_headers. rewrite Hprimary.
  cbn [negb]. unfold json_content_type.
  cbn [set_header String.eqb Ascii.eqb Bool.eqb].
  destruct (ostr_truthy (sessionId sh));
    cbn [set_header String.eqb Ascii.eqb Bool.eqb get_header andb];
    (split; [reflexivity |]); (split; [reflexivity |]);
    intros Hk1 Hk2;
    apply String.eqb_neq in Hk1; apply String.eqb_neq in Hk2;
    rewrite Hk1, Hk2; reflexivity.
Qed.

Lemma retry_headers_change_credentials_only_witness :
  get_header "Authorization"
    (retry_headers
       (shape (PathScenario.answering Scenario.accepted) Scenario.env "gpt-5" []
              no_options fallback_instructions)
       Scenario.auth Scenario.tokens)
  = Some "Bearer tok2"
  /\ get_header "chatgpt-account-id"
       (retry_headers
          (shape (PathScenario.answering Scenario.accepted) Scenario.env "gpt-5" []
                 no_options fallback_instructions)
          Scenario.auth Scenario.tokens)
     = Some "acct".
Proof.
  destruct (@retry_headers_change_credentials_only
              (shape (PathScenario.answering Scenario.accepted) Scenario.env "gpt-5" []
                     no_options fallback_instructions)
              Scenario.auth Scenario.tokens "Accept" eq_refl)
    as (H1 & H2 & _).
  split; [exact H1 | exact H2].
Defined.

(* ================================================================= *)
(** ** The alternate backend *)

Lemma ollama_retry_request sh auth t :
  isOllamaRequest sh = true -> retry_request sh auth t = initial_request sh auth.
Proof.
  intros H. unfold retry_request, initial_request, retry_headers, initial_headers.
  rewrite H. reflexivity.
Qed.

(** For the alternate backend a 401 with the refresh mechanism
    configured still triggers the refresh, and the request sent again
    is the very request that was refused: same URL, same headers, same
    body. *)
Theorem ollama_retry_resends_same_request :
  forall w env model inputItems options auth r t,
    let sh := shape w env model inputItems (options_of options)
                (base_instructions_of w) in
    ostr_truthy (ollamaPath (options_of options)) = true ->
    w_getRefreshedAuth w env = Val auth ->
    credentials_missing auth = false ->
    w_fetch w 0 (initial_request sh auth) = Val r ->
    status r = 401 ->
    ostr_truthy (OPENAI_CODEX_AUTH env) = true ->
    w_refreshAccessToken w env = Val (Some t) ->
    sends (snd (run w env model inputItems options))
    = [initial_request sh auth; initial_request sh auth]
    /\ req_headers (initial_request sh auth) = [("Content-Type", "application/json")].
Proof.
  intros w env model inputItems options auth r t sh
         Hollama Hauth Hcreds Hfirst H401 Hconf Hrefresh.
  assert (Hsh : isOllamaRequest sh = true)
    by (subst sh; unfold shape; cbn [isOllamaRequest]; exact Hollama).
  assert (Hnok : ok r = false) by (unfold ok; rewrite H401; reflexivity).
  assert (Happ : refresh_applies env r = true)
    by (unfold refresh_applies; rewrite H401, Hconf; reflexivity).
  split.
  - rewrite run_is_tree, Hauth, Hcreds.
    unfold dispatch_tree. fold sh. cbv zeta.
    rewrite Hfirst, Hnok, Happ, Hrefresh, (@ollama_retry_request sh auth t Hsh).
    destruct (w_fetch w 1 _) as [r'|e]; [destruct (ok r') |];
      cbn [snd]; count_events; reflexivity.
  - unfold initial_request, initial_headers. cbn [req_headers].
    rewrite Hsh. reflexivity.
Qed.

Lemma ollama_retry_resends_same_request_witness :
  List.length
    (sends (snd (run (Scenario.world (Val Scenario.auth) (Val PathScenario.expired)
                        (Val (Some Scenario.tokens)) (Val Scenario.accepted))
                     Scenario.env "llama3" [] (Some Scenario.ollama))))
  = 2%nat.
Proof.
  rewrite (proj1 (@ollama_retry_resends_same_request
             (Scenario.world (Val Scenario.auth) (Val PathScenario.expired)
                (Val (Some Scenario.tokens)) (Val Scenario.accepted))
             Scenario.env "llama3" [] (Some Scenario.ollama) Scenario.auth
             PathScenario.expired Scenario.tokens
             eq_refl eq_refl eq_refl eq_refl eq_refl eq_refl eq_refl)).
  reflexivity.
Defined.

(** What is sent to the alternate backend depends on the environment,
    the path and the payload alone: the model, the input, the
    instructions, the tools, the tool choice and the reasoning
    configuration leave no mark on the URL, the body or the headers, and
    no session fingerprint is computed. *)
Theorem ollama_request_ignores_primary_fields :
  forall w w' env model model' inputItems inputItems' o o' base base' auth auth',
    ostr_truthy (ollamaPath o) = true ->
    ollamaPath o' = ollamaPath o ->
    ollamaPayload o' = ollamaPayload o ->
    initial_request (shape w env model inputItems o base) auth
    = initial_request (shape w' env model' inputItems' o' base') auth'
    /\ sessionId (shape w env model inputItems o base) = None
    /\ req_url (initial_request (shape w env model inputItems o base) auth)
       = str_of (OLLAMA_API_URL env) ++ str_of (ollamaPath o)
    /\ req_body (initial_request (shape w env model inputItems o base) auth)
       = option_map JSON_stringify (ollamaPayload o).
Proof.
  intros w w' env model model' inputItems inputItems' o o' base base' auth auth'
         Hollama Hpath Hpayload.
  unfold initial_request, initial_headers, shape.
  cbn [isOllamaRequest requestUrl sessionId requestBody req_url req_body].
  rewrite Hpath, Hpayload, Hollama. repeat split; reflexivity.
Qed.

Lemma ollama_request_ignores_primary_fields_witness :
  initial_request
    (shape (PathScenario.answering Scenario.accepted) Scenario.env "llama3" []
           Scenario.ollama fallback_instructions) Scenario.auth
  = initial_request
      (shape PathScenario.refresh_down Scenario.env "gpt-5" [JStr "hello"]
         (mkOptions (Some "be brief") (Some [JNull]) (Some (JStr "none")) (Some true)
            (Some (mkReasoningParam (Some "high") None))
            (Some "/api/chat") (Some (JObj [("model", JStr "llama3")])))
         "other instructions")
      (mkAuth (Some "other") (Some "account")).
Proof.
  apply (@ollama_request_ignores_primary_fields
           (PathScenario.answering Scenario.accepted) PathScenario.refresh_down
           Scenario.env "llama3" "gpt-5" [] [JStr "hello"]
           Scenario.ollama
           (mkOptions (Some "be brief") (Some [JNull]) (Some (JStr "none")) (Some true)
              (Some (mkReasoningParam (Some "high") None))
              (Some "/api/chat") (Some (JObj [("model", JStr "llama3")])))
           fallback_instructions "other instructions"
           Scenario.auth (mkAuth (Some "other") (Some "account")));
    reflexivity.
Defined.

(* ================================================================= *)
(** ** The base prompt *)

Lemma prompt_fetches_app (tr tr' : Trace) :
  prompt_fetches (tr ++ tr')%list = (prompt_fetches tr ++ prompt_fetches tr')%list.
Proof.
  induction tr as [|e tr IH]; [reflexivity |].
  destruct e; cbn [app prompt_fetches]; rewrite IH; reflexivity.
Qed.

Lemma prompt_fetches_prelude env : prompt_fetches (prelude env) = [base_prompt_url].
Proof. unfold prelude, kv_events. destruct (KV env); reflexivity. Qed.

(** The base prompt is fetched exactly once in every invocation that
    has credentials, whichever backend is addressed and whether or not
    the caller gave instructions of its own, and not at all otherwise;
    no other prompt is ever fetched. *)
Theorem base_prompt_fetched_once :
  forall w env model inputItems options,
    prompt_fetches (snd (run w env model inputItems options))
    = match w_getRefreshedAuth w env with
      | Val auth => if credentials_missing auth then [] else [base_prompt_url]
      | Throw _ => []
      end.
Proof.
  intros w env model inputItems options. rewrite run_is_tree.
  destruct (w_getRefreshedAuth w env) as [auth|e]; [| reflexivity].
  destruct (credentials_missing auth).
  { cbn [snd]. unfold kv_events. destruct (KV env); reflexivity. }
  unfold dispatch_tree. cbv zeta.
  destruct (w_fetch w 0 _) as [r|e].
  2:{ cbn [snd]. now rewrite prompt_fetches_app, prompt_fetches_prelude. }
  destruct (ok r).
  { cbn [snd]. now rewrite prompt_fetches_app, prompt_fetches_prelude. }
  destruct (refresh_applies env r).
  2:{ cbn [snd]. now rewrite prompt_fetches_app, prompt_fetches_prelude. }
  destruct (w_refreshAccessToken w env) as [[t|]|e];
    [destruct (w_fetch w 1 _) as [r'|e']; [destruct (ok r') |] | |];
    cbn [snd]; rewrite !prompt_fetches_app, prompt_fetches_prelude; reflexivity.
Qed.

(* ================================================================= *)
(** ** More on the shaped body *)

Lemma tool_choice_of_cases (v : ToolChoice) :
  tool_choice_of v
  = match v with
    | Some (JStr s) =>
        if String.eqb s "auto" || String.eqb s "none" then JStr s else JStr "auto"
    | Some (JObj fs) => JObj fs
    | Some (JArr items) => JArr items
    | _ => JStr "auto"
    end.
Proof.
  unfold tool_choice_of.
  destruct v as [[| b | n | s | items | fs]|]; try reflexivity.
  - destruct b; reflexivity.
  - cbn [truthy json_truthy json_is_literal typeof_object is_undefined orb].
    destruct (negb (n =? 0)); reflexivity.
  - cbn [truthy json_truthy json_is_literal typeof_object is_undefined json_or].
    destruct s as [|c s]; [reflexivity |].
    cbn [str_truthy andb]. rewrite !orb_false_r.
    destruct (String.eqb (String c s) "auto" || String.eqb (String c s) "none");
      reflexivity.
Qed.

(** The [tool_choice] sent is never a falsy value, and validating it
    again changes nothing. *)
Theorem tool_choice_is_normalised :
  forall v,
    json_truthy (tool_choice_of v) = true
    /\ tool_choice_of (Some (tool_choice_of v)) = tool_choice_of v.
Proof.
  intros v. rewrite (tool_choice_of_cases (Some (tool_choice_of v))).
  rewrite (tool_choice_of_cases v).
  destruct v as [[| b | n | s | items | fs]|]; try (split; reflexivity).
  destruct (String.eqb s "auto" || String.eqb s "none") eqn:E.
  - rewrite E. split; [| reflexivity].
    apply orb_true_iff in E. destruct E as [E | E];
      apply String.eqb_eq in E; subst s; reflexivity.
  - split; reflexivity.
Qed.

(** The object serialised for the primary backend has the ten fixed
    keys in the order written, followed by [reasoning] exactly when a
    reasoning configuration was supplied; no key occurs twice; [store]
    is false and [stream] is true whatever the caller passes. *)
Theorem primary_body_keys :
  forall w env model inputItems o base,
    ostr_truthy (ollamaPath o) = false ->
    exists fields,
      requestBody (shape w env model inputItems o base)
      = Some (JSON_stringify (JObj fields))
      /\ map fst fields
         = (["model"; "instructions"; "input"; "tools"; "tool_choice";
             "parallel_tool_calls"; "store"; "stream"; "include";
             "prompt_cache_key"]
            ++ match reasoningParam o with Some _ => ["reasoning"] | None => [] end)%list
      /\ NoDup (map fst fields)
      /\ assoc "store" fields = Some (JBool false)
      /\ assoc "stream" fields = Some (JBool true).
Proof.
  intros w env model inputItems o base Hprimary.
  eexists. split; [apply primary_body, Hprimary |].
  cbn [opt_field option_map app map fst].
  destruct (reasoningParam o); cbn [app map fst];
    (split; [reflexivity |]); (split; [| split; reflexivity]);
    repeat (constructor; [cbn; intuition discriminate |]); constructor.
Qed.

Lemma primary_body_keys_witness :
  exists fields,
    requestBody (shape (PathScenario.answering Scenario.accepted) Scenario.env
                   "gpt-5" [] no_options fallback_instructions)
    = Some (JSON_stringify (JObj fields))
    /\ List.length fields = 10%nat.
Proof.
  destruct (@primary_body_keys (PathScenario.answering Scenario.accepted)
              Scenario.env "gpt-5" [] no_options fallback_instructions eq_refl)
    as (fields & Hbody & Hkeys & _).
  exists fields. split; [exact Hbody |].
  rewrite <- (length_map fst), Hkeys. reflexivity.
Defined.

(** The session fingerprint of a primary dispatch is determined by the
    caller's instructions and the input alone: the model, the tools,
    the environment, the credentials' world and the base prompt that
    ends up in the body do not enter it; and instructions left out
    count as the empty string. *)
Theorem session_fingerprint_ignores_the_rest :
  forall w w' env env' model model' inputItems o o' base base',
    ostr_truthy (ollamaPath o) = false ->
    ostr_truthy (ollamaPath o') = false ->
    ostr_or (instructions o') "" = ostr_or (instructions o) "" ->
    sessionId (shape w env model inputItems o base)
    = sessionId (shape w' env' model' inputItems o' base').
Proof.
  intros w w' env env' model model' inputItems o o' base base' Hp Hp' Hinstr.
  unfold shape. cbn [sessionId]. rewrite Hp, Hp'.
  unfold generateSessionId. cbv zeta. rewrite Hinstr. reflexivity.
Qed.

Lemma session_fingerprint_ignores_the_rest_witness :
  sessionId (shape (PathScenario.answering Scenario.accepted) Scenario.env "gpt-5"
               [JStr "hello"] no_options fallback_instructions)
  = sessionId (shape PathScenario.refresh_down
                 (mkEnv false None "https://other.example/v1" (Some "gpt-5-codex") None)
                 "gpt-5-codex" [JStr "hello"]
                 (mkOptions (Some "") (Some [JNull]) (Some (JStr "none")) (Some true)
                    (Some (mkReasoningParam (Some "high") None)) None None)
                 "fetched prompt").
Proof.
  apply (@session_fingerprint_ignores_the_rest
           (PathScenario.answering Scenario.accepted) PathScenario.refresh_down
           Scenario.env
           (mkEnv false None "https://other.example/v1" (Some "gpt-5-codex") None)
           "gpt-5" "gpt-5-codex" [JStr "hello"] no_options
           (mkOptions (Some "") (Some [JNull]) (Some (JStr "none")) (Some true)
              (Some (mkReasoningParam (Some "high") None)) None None)
           fallback_instructions "fetched prompt"); reflexivity.
Defined.
